(** * OpenSSA task agents and Program Space

    A shallow embedding of
    - [openssa/core/ooda_rag/builtin_agents.py]: the five task agents
      ([AskUserAgent], [GoalAgent], [ContextValidator], [SynthesizingAgent],
      [OODAPlanAgent]);
    - [openssa/l2/program_space/__init__.py]: [ProgramSpace].

    Python lists and dicts are objects of a store and are passed by
    reference; the agents run in a small monad that threads the store and
    the log of LM invocations and that can raise a Python exception.
    Strings are [string]; a character is a code point below 256.

    Not in the sources read here, and taken as follows: [json.loads] is any
    function from texts to decoded values or a decode error; the prompts of
    [BuiltInAgentPrompt] and the program-search template are any texts and
    any functions of their fields; [Utils.timeit] returns what the method
    it wraps returns; writing to the log has no effect on a result. *)

From Stdlib Require Import ZArith Lia Ascii String.
From stdpp Require Import base list strings.

Set Warnings "-register-all".
Open Scope string_scope.
Open Scope Z_scope.

(** ** Python primitives *)

Module Py.

(** Values that [json.loads] produces, and the values held in a message. *)
Inductive pyval : Type :=
  | VNone
  | VBool (b : bool)
  | VInt (n : Z)
  | VFloat (bits : Z)
  | VStr (s : string)
  | VList (l : list pyval)
  | VDict (d : list (string * pyval)).

(** A [dict], in insertion order: [d[k] = v] overwrites in place when [k] is
    present and appends otherwise. *)
Definition dict (V : Type) : Type := list (string * V).

Fixpoint dict_get {V} (d : dict V) (k : string) : option V :=
  match d with
  | [] => None
  | (k', v) :: d' => if String.eqb k' k then Some v else dict_get d' k
  end.

Fixpoint dict_set {V} (d : dict V) (k : string) (v : V) : dict V :=
  match d with
  | [] => [(k, v)]
  | (k', v') :: d' =>
      if String.eqb k' k then (k', v) :: d' else (k', v') :: dict_set d' k v
  end.

Definition dict_keys {V} (d : dict V) : list string := map fst d.

(** [d.get(k, default)] *)
Definition dict_get_default {V} (d : dict V) (k : string) (default : V) : V :=
  match dict_get d k with Some v => v | None => default end.

(** Index adjustment of a slice bound (step 1): a negative bound counts from
    the end, and the result is clamped to [0, len]. *)
Definition adjust_index (len i : Z) : Z :=
  if i <? 0 then Z.max 0 (i + len) else Z.min i len.

(** [l[start:stop]] *)
Definition slice {A} (l : list A) (start stop : option Z) : list A :=
  let len := Z.of_nat (length l) in
  let lo := match start with Some i => adjust_index len i | None => 0 end in
  let hi := match stop with Some j => adjust_index len j | None => len end in
  take (Z.to_nat (hi - lo)) (drop (Z.to_nat lo) l).

(** [l[i]]; [None] stands for IndexError. *)
Definition index {A} (l : list A) (i : Z) : option A :=
  let len := Z.of_nat (length l) in
  let j := if i <? 0 then i + len else i in
  if (0 <=? j) && (j <? len) then l !! Z.to_nat j else None.

(** [str.isspace] on one character. *)
Definition is_space (c : ascii) : bool :=
  let n := N_of_ascii c in
  ((9 <=? n) && (n <=? 13) || (28 <=? n) && (n <=? 32)
   || (n =? 133) || (n =? 160))%N.

Fixpoint lstrip (s : string) : string :=
  match s with
  | EmptyString => EmptyString
  | String c s' => if is_space c then lstrip s' else s
  end.

Fixpoint rstrip (s : string) : string :=
  match s with
  | EmptyString => EmptyString
  | String c s' =>
      match rstrip s' with
      | EmptyString => if is_space c then EmptyString else String c EmptyString
      | r => String c r
      end
  end.

(** [s.strip()] *)
Definition strip (s : string) : string := rstrip (lstrip s).

(** [s.startswith(p)] *)
Definition startswith (s p : string) : bool := String.prefix p s.

(** Truth value of a [str]. *)
Definition str_truthy (s : string) : bool := negb (String.eqb s "").

Inductive exn : Type :=
  | TypeError
  | AttributeError
  | IndexError
  | KeyError (k : string)
  | JSONDecodeError.

Inductive outcome (A : Type) : Type :=
  | Ret (a : A)
  | Raise (e : exn).
Arguments Ret {A} a.
Arguments Raise {A} e.

End Py.
Import Py.

(** ** Computations: a state that is threaded, and Python exceptions *)

Definition M (S A : Type) : Type := S -> outcome A * S.

Definition ret {S A} (a : A) : M S A := fun s => (Ret a, s).

Definition raise {S A} (e : exn) : M S A := fun s => (Raise e, s).

Definition bind {S A B} (c : M S A) (k : A -> M S B) : M S B :=
  fun s =>
    match c s with
    | (Ret a, s') => k a s'
    | (Raise e, s') => (Raise e, s')
    end.

Notation "'let*' x ':=' c 'in' k" := (bind c (fun x => k))
  (at level 10, x name, c at level 100, k at level 200).

(** [try: body except JSONDecodeError: handler]; any other exception goes
    on to the caller. *)
Definition try_except_JSONDecodeError {S A} (body handler : M S A) : M S A :=
  fun s =>
    match body s with
    | (Raise JSONDecodeError, s') => handler s'
    | r => r
    end.

(** ** The store of the agents *)

Definition loc : Type := nat.

(** A list holds references to its items; a message is a dict. *)
Inductive obj : Type :=
  | OList (items : list loc)
  | ODict (d : dict pyval).

(** The objects allocated so far, and the message lists handed to the LM, in
    order. *)
Record world : Type := World {
  heap : list obj;
  lm_calls : list loc
}.

(** A new object; its reference is the next free one. *)
Definition alloc (o : obj) : M world loc :=
  fun w => (Ret (length (heap w)), World (heap w ++ [o]) (lm_calls w)).

(** The items of the list at [l]; anything that is not a list cannot be
    sliced or concatenated to a list. *)
Definition read_list (l : loc) : M world (list loc) :=
  fun w =>
    match heap w !! l with
    | Some (OList items) => (Ret items, w)
    | _ => (Raise TypeError, w)
    end.

(** [l[i]] on the list at [l]. *)
Definition list_index (l : loc) (i : Z) : M world loc :=
  let* items := read_list l in
  match index items i with
  | Some x => ret x
  | None => raise IndexError
  end.

(** [m.get(k, default)] on the object at [m]; only a dict has [get]. *)
Definition obj_get (m : loc) (k : string) (default : pyval) : M world pyval :=
  fun w =>
    match heap w !! m with
    | Some (ODict d) => (Ret (dict_get_default d k default), w)
    | _ => (Raise AttributeError, w)
    end.

(** [jobject.get(k, default)] on a decoded value. *)
Definition val_get {S} (jobject : pyval) (k : string) (default : pyval)
  : M S pyval :=
  match jobject with
  | VDict d => ret (dict_get_default d k default)
  | _ => raise AttributeError
  end.

(** The LM of the agents: [llm.call(messages=..., response_format=...)]
    followed by [.choices[0].message.content]. It reads the message list
    through its reference. *)
Definition AnLLM : Type := list obj -> loc -> string.

Definition llm_call (llm : AnLLM) (messages : loc) : M world string :=
  fun w =>
    (Ret (llm (heap w) messages), World (heap w) (lm_calls w ++ [messages])).

(** [class AgentRole] *)
Definition AgentRole_USER : string := "user".
Definition AgentRole_SYSTEM : string := "system".
Definition AgentRole_ASSISTANT : string := "assistant".

(** [conversation[-10:stop] if conversation else []], the expression of every
    [__init__]: [None] and the empty list are false. *)
Definition window (conversation : option loc) (stop : option Z) : M world loc :=
  match conversation with
  | None => alloc (OList [])
  | Some c =>
      let* items := read_list c in
      match items with
      | [] => alloc (OList [])
      | _ :: _ => alloc (OList (slice items (Some (-10)) stop))
      end
  end.

(** [BuiltInAgentPrompt], of [openssa.core.ooda_rag.prompts]: the two
    constant prompts and the three templates with their [format] fields.
    A context is formatted through its reference. *)
Record BuiltInAgentPrompt : Type := {
  ASK_USER : string -> string -> string;
  PROBLEM_STATEMENT : string;
  CONTENT_VALIDATION : list obj -> option loc -> string -> string;
  SYNTHESIZE_RESULT : list obj -> option loc -> string -> string;
  GENERATE_OODA_PLAN : string
}.

Record AskUserAgent : Type := {
  AskUserAgent_llm : AnLLM;
  AskUserAgent_ask_user_heuristic : string;
  AskUserAgent_conversation : loc
}.

Record GoalAgent : Type := {
  GoalAgent_llm : AnLLM;
  GoalAgent_conversation : loc
}.

Record ContextValidator : Type := {
  ContextValidator_llm : AnLLM;
  ContextValidator_conversation : loc;
  ContextValidator_context : option loc
}.

Record SynthesizingAgent : Type := {
  SynthesizingAgent_llm : AnLLM;
  SynthesizingAgent_conversation : loc;
  SynthesizingAgent_context : option loc
}.

Record OODAPlanAgent : Type := {
  OODAPlanAgent_llm : AnLLM;
  OODAPlanAgent_conversation : loc
}.

(** ** The task agents *)

Section TaskAgents.

(** [json.loads] on a [str]; [None] is [json.JSONDecodeError]. *)
Variable json_loads : string -> option pyval.

Variable prompts : BuiltInAgentPrompt.

Definition json_loads_m {S} (json_str : string) : M S pyval :=
  match json_loads json_str with
  | Some v => ret v
  | None => raise JSONDecodeError
  end.

(** [{"role": role, "content": content}] *)
Definition message (role content : string) : obj :=
  ODict [("role", VStr role); ("content", VStr content)].

Definition AskUserAgent_init (llm : AnLLM) (ask_user_heuristic : string)
    (conversation : option loc) : M world AskUserAgent :=
  let* conversation := window conversation None in
  ret {| AskUserAgent_llm := llm;
         AskUserAgent_ask_user_heuristic := strip ask_user_heuristic;
         AskUserAgent_conversation := conversation |}.

Definition AskUserAgent_execute (self : AskUserAgent) (task : string)
  : M world pyval :=
  if negb (str_truthy (AskUserAgent_ask_user_heuristic self)) then
    ret (VStr "")
  else
    let* system_message :=
      alloc (message AgentRole_SYSTEM
               (ASK_USER prompts task (AskUserAgent_ask_user_heuristic self))) in
    let* own := read_list (AskUserAgent_conversation self) in
    let* conversation := alloc (OList (own ++ [system_message])) in
    let* json_str := llm_call (AskUserAgent_llm self) conversation in
    try_except_JSONDecodeError
      (let* jobject := json_loads_m json_str in
       val_get jobject "question" (VStr ""))
      (ret (VStr "")).

Definition GoalAgent_init (llm : AnLLM) (conversation : option loc)
  : M world GoalAgent :=
  let* conversation := window conversation None in
  ret {| GoalAgent_llm := llm; GoalAgent_conversation := conversation |}.

Definition GoalAgent_execute (self : GoalAgent) (task : string)
  : M world pyval :=
  let* system_message :=
    alloc (message AgentRole_SYSTEM (PROBLEM_STATEMENT prompts)) in
  let* own := read_list (GoalAgent_conversation self) in
  let* conversation := alloc (OList (own ++ [system_message])) in
  let* json_str := llm_call (GoalAgent_llm self) conversation in
  try_except_JSONDecodeError
    (let* jobject := json_loads_m json_str in
     val_get jobject "problem statement" (VStr ""))
    (let* last := list_index conversation (-1) in
     obj_get last "content" (VStr "")).

Definition ContextValidator_init (llm : AnLLM) (conversation : option loc)
    (context : option loc) : M world ContextValidator :=
  let* conversation := window conversation (Some (-1)) in
  ret {| ContextValidator_llm := llm;
         ContextValidator_conversation := conversation;
         ContextValidator_context := context |}.

Definition ContextValidator_execute (self : ContextValidator) (task : string)
  : M world pyval :=
  let* system_message :=
    fun w =>
      alloc (message "system"
               (CONTENT_VALIDATION prompts (heap w)
                  (ContextValidator_context self) task)) w in
  let* own := read_list (ContextValidator_conversation self) in
  let* conversation := alloc (OList (own ++ [system_message])) in
  let* json_str := llm_call (ContextValidator_llm self) conversation in
  try_except_JSONDecodeError
    (let* jobject := json_loads_m json_str in
     ret jobject)
    (ret (VDict [])).

Definition SynthesizingAgent_init (llm : AnLLM) (conversation : option loc)
    (context : option loc) : M world SynthesizingAgent :=
  let* conversation := window conversation (Some (-1)) in
  ret {| SynthesizingAgent_llm := llm;
         SynthesizingAgent_conversation := conversation;
         SynthesizingAgent_context := context |}.

Definition SynthesizingAgent_execute (self : SynthesizingAgent) (task : string)
  : M world pyval :=
  let* system_message :=
    fun w =>
      alloc (message "system"
               (SYNTHESIZE_RESULT prompts (heap w)
                  (SynthesizingAgent_context self) task)) w in
  let* own := read_list (SynthesizingAgent_conversation self) in
  let* conversation := alloc (OList (own ++ [system_message])) in
  let* json_str := llm_call (SynthesizingAgent_llm self) conversation in
  try_except_JSONDecodeError
    (json_loads_m json_str)
    (ret (VDict [])).

Definition OODAPlanAgent_init (llm : AnLLM) (conversation : option loc)
  : M world OODAPlanAgent :=
  let* conversation := window conversation None in
  ret {| OODAPlanAgent_llm := llm;
         OODAPlanAgent_conversation := conversation |}.

Definition OODAPlanAgent_execute (self : OODAPlanAgent) (task : string)
  : M world pyval :=
  let* system_message :=
    alloc (message "system" (GENERATE_OODA_PLAN prompts)) in
  let* own := read_list (OODAPlanAgent_conversation self) in
  let* conversation := alloc (OList (own ++ [system_message])) in
  let* json_str := llm_call (OODAPlanAgent_llm self) conversation in
  try_except_JSONDecodeError
    (json_loads_m json_str)
    (ret (VDict [])).

End TaskAgents.

(** ** Program Space *)

Section ProgramSpaceDef.

(** [AProgram], [Knowledge] and [LMChatHist] are opaque here. *)
Variables AProgram Knowledge LMChatHist : Type.

(** An [AResource], as far as [find_program] reads it. *)
Record AResource : Type := {
  unique_name : string;
  overview : string
}.

(** [lm.get_response(prompt=..., history=...)] *)
Definition AnLM : Type := string -> option LMChatHist -> string.

Record ProgramSpace : Type := {
  descriptions : dict string;
  programs : dict AProgram;
  lm : AnLM
}.

(** Field defaults of the dataclass: two empty dicts. *)
Definition ProgramSpace_new (lm : AnLM) : ProgramSpace :=
  {| descriptions := []; programs := []; lm := lm |}.

(** The Program Space, and the (prompt, history) requests sent to its LM. *)
Record space_state : Type := SpaceState {
  space : ProgramSpace;
  lm_requests : list (string * option LMChatHist)
}.

(** [knowledge_injection_lm_chat_msgs], of [openssa.l2.knowledge._prompts]. *)
Variable knowledge_injection_lm_chat_msgs : list Knowledge -> LMChatHist.

(** [PROGRAM_SEARCH_PROMPT_TEMPLATE.format(problem=..., resource_overviews=...,
    program_descriptions=...)], of [._prompts]. *)
Variable PROGRAM_SEARCH_PROMPT_TEMPLATE :
  string -> dict string -> string -> string.

(** [json.dumps] on a dict of strings. *)
Variable json_dumps : dict string -> string.

Definition add_or_update_program (self : ProgramSpace) (name description : string)
    (program : AProgram) : ProgramSpace :=
  let self :=
    {| descriptions := dict_set (descriptions self) name description;
       programs := programs self;
       lm := lm self |} in
  {| descriptions := descriptions self;
     programs := dict_set (programs self) name program;
     lm := lm self |}.

(** [{r.unique_name: r.overview for r in rs}], for the elements [rs] of a
    set in iteration order. *)
Definition overviews_of (rs : list AResource) : dict string :=
  fold_left (fun d r => dict_set d (unique_name r) (overview r)) rs [].

(** [{r.unique_name: r.overview for r in resources}]; [None] cannot be
    iterated. *)
Definition resource_overviews {S} (resources : option (list AResource))
  : M S (dict string) :=
  match resources with
  | None => raise TypeError
  | Some rs => ret (overviews_of rs)
  end.

Definition get_response (prompt : string) (history : option LMChatHist)
  : M space_state string :=
  fun s =>
    (Ret (lm (space s) prompt history),
     SpaceState (space s) (lm_requests s ++ [(prompt, history)])).

(** [self.programs[name]] *)
Definition programs_getitem (name : string) : M space_state AProgram :=
  fun s =>
    match dict_get (programs (space s)) name with
    | Some p => (Ret p, s)
    | None => (Raise (KeyError name), s)
    end.

(** [knowledge_injection_lm_chat_msgs(knowledge=knowledge) if knowledge
    else None]: [None] and the empty set are false. *)
Definition knowledge_lm_hist (knowledge : option (list Knowledge))
  : option LMChatHist :=
  match knowledge with
  | Some (k :: ks) => Some (knowledge_injection_lm_chat_msgs (k :: ks))
  | _ => None
  end.

Definition find_program (problem : string)
    (knowledge : option (list Knowledge))
    (resources : option (list AResource)) : M space_state (option AProgram) :=
  let knowledge_lm_hist := knowledge_lm_hist knowledge in
  let* overviews := resource_overviews resources in
  let* program_descriptions :=
    fun s => (Ret (json_dumps (descriptions (space s))), s) in
  let* matching_program_name :=
    get_response
      (PROGRAM_SEARCH_PROMPT_TEMPLATE problem overviews program_descriptions)
      knowledge_lm_hist in
  if startswith matching_program_name "NONE" then ret None
  else
    let* program := programs_getitem matching_program_name in
    ret (Some program).

(** The prompt of the program search for resources [rs]. *)
Definition search_prompt (self : ProgramSpace) (problem : string)
    (rs : list AResource) : string :=
  PROGRAM_SEARCH_PROMPT_TEMPLATE problem (overviews_of rs)
    (json_dumps (descriptions self)).

(** The response of the LM to the program search. *)
Definition search_response (self : ProgramSpace) (problem : string)
    (knowledge : option (list Knowledge)) (rs : list AResource) : string :=
  lm self (search_prompt self problem rs) (knowledge_lm_hist knowledge).

(** The description and the program of the last call for [name] in a
    sequence of [add_or_update_program] calls. *)
Fixpoint last_upsert (calls : list (string * string * AProgram)) (name : string)
  : option (string * AProgram) :=
  match calls with
  | [] => None
  | (n, d, p) :: rest =>
      match last_upsert rest name with
      | Some r => Some r
      | None => if String.eqb n name then Some (d, p) else None
      end
  end.

(** A sequence of [add_or_update_program(name, description, program)] calls,
    first call first. *)
Definition add_or_update_programs (self : ProgramSpace)
    (calls : list (string * string * AProgram)) : ProgramSpace :=
  fold_left
    (fun self call =>
       add_or_update_program self (fst (fst call)) (snd (fst call)) (snd call))
    calls self.

End ProgramSpaceDef.

Arguments descriptions {AProgram LMChatHist} _.
Arguments programs {AProgram LMChatHist} _.
Arguments lm {AProgram LMChatHist} _.
Arguments ProgramSpace_new {AProgram LMChatHist} _.
Arguments SpaceState {AProgram LMChatHist} _ _.
Arguments space {AProgram LMChatHist} _.
Arguments lm_requests {AProgram LMChatHist} _.
Arguments add_or_update_program {AProgram LMChatHist} _ _ _ _.
Arguments add_or_update_programs {AProgram LMChatHist} _ _.
Arguments resource_overviews {S} _.
Arguments last_upsert {AProgram} _ _.
Arguments search_prompt {AProgram LMChatHist} _ _ _ _ _.
Arguments search_response {AProgram Knowledge LMChatHist} _ _ _ _ _ _ _.
Arguments get_response {AProgram LMChatHist} _ _ _.
Arguments programs_getitem {AProgram LMChatHist} _ _.
Arguments knowledge_lm_hist {Knowledge LMChatHist} _ _.
Arguments find_program {AProgram Knowledge LMChatHist} _ _ _ _ _ _.

(** ** Predicates of the statements *)

(** The argument [conversation] of an [__init__] is [None] or a list. *)
Definition is_conversation (w : world) (conversation : option loc) : bool :=
  match conversation with
  | None => true
  | Some c => match heap w !! c with Some (OList _) => true | _ => false end
  end.

(** Every character of [s] is whitespace. *)
Fixpoint all_space (s : string) : bool :=
  match s with
  | EmptyString => true
  | String c s' => is_space c && all_space s'
  end.

(** A computation leaves every object that exists when it starts as it is;
    what it adds to the store is new. *)
Definition preserves_store {A} (c : M world A) : Prop :=
  forall (w : world) (l : loc) (o : obj),
    heap w !! l = Some o -> heap (snd (c w)) !! l = Some o.

(** The number of LM invocations a computation makes from [w]. *)
Definition lm_invocations {A} (c : M world A) (w : world) : nat :=
  (length (lm_calls (snd (c w))) - length (lm_calls w))%nat.

(** [win] is the last [K] entries of [items]: [min L K] of them, in their
    order, and all of [items] when it has fewer than [K]. *)
Definition last_entries (K : nat) (items win : list loc) : Prop :=
  length win = Nat.min (length items) K
  /\ win `suffix_of` items
  /\ ((length items < K)%nat -> win = items).

(** [win] is the last [K] entries of [items] without the newest one: put
    back, the newest entry completes the last [K] entries. *)
Definition last_entries_but_newest (K : nat) (items win : list loc) : Prop :=
  length win = (Nat.min (length items) K - 1)%nat
  /\ win `sublist_of` items
  /\ (forall newest, last items = Some newest ->
        last_entries K items (win ++ [newest])%list).

(** From [w], [init] returns an agent whose conversation is a list that
    satisfies [P]. *)
Definition holds_window {A} (init : M world A) (conversation_of : A -> loc)
    (w : world) (P : list loc -> Prop) : Prop :=
  exists (a : A) (w' : world) (win : list loc),
    init w = (Ret a, w')
    /\ heap w' !! conversation_of a = Some (OList win)
    /\ P win.

(** The store after the two allocations of an [execute]: the system message,
    then the list sent to the LM. *)
Definition sent (w : world) (system_message : obj) (own : list loc) : list obj :=
  (heap w ++ [system_message; OList (own ++ [length (heap w)])])%list.

(** The entries that [window] keeps. *)
Definition window_items (w : world) (conversation : option loc)
    (stop : option Z) : list loc :=
  match conversation with
  | None => []
  | Some c =>
      match heap w !! c with
      | Some (OList items) => slice items (Some (-10)) stop
      | _ => []
      end
  end.

(** What a computation returns refers to a list that did not exist when it
    started. *)
Definition returns_new_list {A} (c : M world A) (ref_of : A -> loc) : Prop :=
  forall (w : world) (a : A) (w' : world),
    c w = (Ret a, w') ->
    heap w !! ref_of a = None
    /\ exists items, heap w' !! ref_of a = Some (OList items).

(** Every message list a computation hands to the LM did not exist when it
    started. *)
Definition sends_new_lists {A} (c : M world A) : Prop :=
  forall (w : world) (m : loc),
    m ∈ drop (length (lm_calls w)) (lm_calls (snd (c w))) ->
    heap w !! m = None.

(** An agent class only reads the store it is given: its constructor and
    its [execute] leave every existing object as it is, the conversation it
    holds is a new list, and so is the list it sends. *)
Definition reads_only {Self} (init : option loc -> M world Self)
    (conversation_of : Self -> loc)
    (execute : Self -> string -> M world pyval) : Prop :=
  (forall conversation,
      preserves_store (init conversation)
      /\ returns_new_list (init conversation) conversation_of)
  /\ (forall self task,
        preserves_store (execute self task)
        /\ sends_new_lists (execute self task)).

(** Construct the agent, then call [execute] once. *)
Definition construct_and_execute {Self} (init : M world Self)
    (execute : Self -> string -> M world pyval) (task : string)
  : M world pyval :=
  let* self := init in execute self task.

(** The content field of the last message of the caller's conversation
    at [c], when it has one. *)
Definition original_last_content (w : world) (c : loc) : option pyval :=
  match heap w !! c with
  | Some (OList items) =>
      match last items with
      | Some m =>
          match heap w !! m with
          | Some (ODict d) => Some (dict_get_default d "content" (VStr ""))
          | _ => None
          end
      | None => None
      end
  | _ => None
  end.

(** The registry of the example scenario: one program, numbered 1. *)
Definition example_space (lm : string -> option unit -> string)
  : ProgramSpace nat unit :=
  add_or_update_program (ProgramSpace_new lm)
    "cash-flow-plan" "computes free cash flow" 1%nat.

(** A decoder for the examples: it knows the empty object and rejects every
    other text. *)
Definition decode_empty_object_only (s : string) : option pyval :=
  if String.eqb s "{}" then Some (VDict []) else None.

(** Prompts for the examples. *)
Definition example_prompts : BuiltInAgentPrompt :=
  {| ASK_USER := fun problem_statement heuristic =>
       "Ask about: " ++ problem_statement ++ " using: " ++ heuristic;
     PROBLEM_STATEMENT := "Derive the problem statement.";
     CONTENT_VALIDATION := fun _ _ query => "Validate: " ++ query;
     SYNTHESIZE_RESULT := fun _ _ query => "Synthesize: " ++ query;
     GENERATE_OODA_PLAN := "Generate an OODA plan." |}.

(** A store with one user message (at 0) and the caller's conversation
    list (at 1) that holds it. *)
Definition example_world : world :=
  World [ODict [("role", VStr "user"); ("content", VStr "What is the revenue?")];
         OList [0%nat]] [].

(** An LM whose completion is never JSON. *)
Definition example_llm : AnLLM := fun _ _ => "I cannot answer".

(** ** Further predicates *)

(** The world after an agent was constructed on a conversation and executed
    once, when it sent a list to the LM: three new objects (the window, the
    system message, the list sent) and one more LM invocation. *)
Definition after_run (w : world) (win : list loc) (system_message : obj)
  : world :=
  World (heap w ++ [OList win; system_message;
                    OList (win ++ [S (length (heap w))])])
        (lm_calls w ++ [S (S (length (heap w)))]).

(** Run [c2] in the world that [c1] leaves, whatever [c1] returned or
    raised: two calls made one after the other by a caller that goes on. *)
Definition and_then {A B} (c1 : M world A) (c2 : M world B) : M world B :=
  fun w => c2 (snd (c1 w)).

(** The objects that were handed to the LM between [w] and [w'], as they are
    in [w']. *)
Definition lists_sent (w w' : world) : list (option obj) :=
  map (fun l => heap w' !! l) (drop (length (lm_calls w)) (lm_calls w')).

(** A decoded value is a dict (a JSON object). *)
Definition is_dict (v : pyval) : bool :=
  match v with VDict _ => true | _ => false end.

(** Between [w] and [w'] the LM was invoked once, on a list that holds the
    entries [win] followed by one new object, the message [system_message]. *)
Definition sends_once (w w' : world) (win : list loc) (system_message : obj)
  : Prop :=
  exists sys : loc,
    heap w !! sys = None
    /\ heap w' !! sys = Some system_message
    /\ lists_sent w w' = [Some (OList (win ++ [sys]))].

(** A decoder for the examples that knows three texts. *)
Definition decode_literals (s : string) : option pyval :=
  if String.eqb s "{}" then Some (VDict [])
  else if String.eqb s "[]" then Some (VList [])
  else if String.eqb s "null" then Some VNone
  else None.

(** An LM whose completion is always the text [s]. *)
Definition constant_llm (s : string) : AnLLM := fun _ _ => s.

(** [k in d] *)
Definition dict_has {V} (d : dict V) (k : string) : bool :=
  match dict_get d k with Some _ => true | None => false end.

(** ** The FinanceBench example harness

    [examples/FinanceBench/util.py] and the entry point of
    [examples/FinanceBench/rag_default.py]. The tables of
    [data_and_knowledge], the functions of [eval], the logger and the output
    data frame are not in the sources read here: the tables are any values,
    and the functions are any computations on a state of their own, which
    may raise. [tqdm] iterates over its argument. *)

Module FinanceBench.

(** [str.lower] on one character: the capital letters below 256, that is
    A to Z and the accented capitals, the multiplication sign excepted. *)
Definition lower_char (c : ascii) : ascii :=
  let n := N_of_ascii c in
  if ((65 <=? n) && (n <=? 90)
      || (192 <=? n) && (n <=? 222) && negb (n =? 215))%N
  then ascii_of_N (n + 32)
  else c.

(** [s.lower()] *)
Fixpoint lower (s : string) : string :=
  match s with
  | EmptyString => EmptyString
  | String c s' => String (lower_char c) (lower s')
  end.

(** [sub in s] *)
Fixpoint contains (s sub : string) : bool :=
  if startswith s sub then true
  else match s with
       | EmptyString => false
       | String _ s' => contains s' sub
       end.

(** [s.replace(c, c + c)] for a character [c]. *)
Fixpoint double_char (c : ascii) (s : string) : string :=
  match s with
  | EmptyString => EmptyString
  | String x s' =>
      if Ascii.eqb x c then String c (String c (double_char c s'))
      else String x (double_char c s')
  end.

(** The line feed. *)
Definition nl : string := String "010" EmptyString.

(** [d[k]] *)
Definition getitem {S V} (d : dict V) (k : string) : M S V :=
  match dict_get d k with
  | Some v => ret v
  | None => raise (KeyError k)
  end.

(** [for x in xs: body(x)] *)
Fixpoint for_each {S A} (xs : list A) (body : A -> M S unit) : M S unit :=
  match xs with
  | [] => ret tt
  | x :: xs' => let* _ := body x in for_each xs' body
  end.

Section Harness.

(** The state of the collaborators. *)
Variable St : Type.

Variable DataFrame : Type.
Variable FB_IDS : list string.
Variables DOC_NAMES_BY_FB_ID QS_BY_FB_ID : dict string.

(** [eval_all(output_name=..., refresh=...)] and
    [eval_correctness(fb_id=..., answer=..., output_name=...)]. *)
Variable eval_all : string -> bool -> M St unit.
Variable eval_correctness : string -> string -> string -> M St unit.

(** [logger.info(message, depth=1)] *)
Variable logger_info : string -> M St unit.

(** [get_or_create_output_df()], [output_df.loc[fb_id, column] = answer] and
    [output_df.to_csv(OUTPUT_FILE_PATH, index=True)]. *)
Variable get_or_create_output_df : M St DataFrame.
Variable loc_setitem : DataFrame -> string -> string -> string -> M St unit.
Variable to_csv : DataFrame -> M St unit.

(** [str.upper]: its result can have characters that are not below 256, so
    it is any function. *)
Variable upper : string -> string.

Definition QAFunc : Type := string -> M St string.

(** [enable_batch_qa_and_eval(output_name)(qa_func)] *)
Definition enable_batch_qa_and_eval (output_name : string) (qa_func : QAFunc)
  : string -> M St (option string) :=
  fun fb_id =>
    if contains (lower fb_id) "all" then
      let* _ := for_each FB_IDS
                  (fun _fb_id => let* _ := qa_func _fb_id in ret tt) in
      let* _ := eval_all output_name true in
      ret None
    else
      let* answer := qa_func fb_id in
      let* _ := eval_correctness fb_id answer output_name in
      ret (Some answer).

(** [log_qa_and_update_output_file(output_name)(qa_func)] *)
Definition log_qa_and_update_output_file (output_name : string)
    (qa_func : QAFunc) : QAFunc :=
  fun fb_id =>
    let* doc_name := getitem DOC_NAMES_BY_FB_ID fb_id in
    let* q := getitem QS_BY_FB_ID fb_id in
    let question := nl ++ fb_id ++ nl ++ doc_name ++ ":" ++ nl ++ q ++ nl in
    let* _ := logger_info
                (question ++ nl ++ "... solving process starting ..." ++ nl) in
    let* answer := qa_func fb_id in
    let* _ := logger_info
                (question
                 ++ (nl ++ upper output_name ++ ":" ++ nl
                     ++ double_char "}" (double_char "{" answer) ++ nl)) in
    let* output_df := get_or_create_output_df in
    let* _ := loc_setitem output_df fb_id output_name answer in
    let* _ := to_csv output_df in
    ret answer.

End Harness.

(** The argument that the entry point of [rag_default.py] gives to
    [answer]: [fb_id if fb_id.startswith(FB_ID_COL_NAME) else
    f'{FB_ID_COL_NAME}_{fb_id}']. *)
Definition main_fb_id (FB_ID_COL_NAME fb_id : string) : string :=
  if startswith fb_id FB_ID_COL_NAME then fb_id
  else FB_ID_COL_NAME ++ "_" ++ fb_id.

(** A question-answering function for the examples: it notes the id it was
    asked, and raises on the id bad. *)
Definition example_qa_func : string -> M (list string) string :=
  fun fb_id asked =>
    (if String.eqb fb_id "bad" then Raise TypeError else Ret "answer",
     asked ++ [fb_id])%list.

End FinanceBench.

(** * Properties *)

(** ** Slices *)

Lemma slice_last_10 {A} (l : list A) :
  slice l (Some (-10)) None = drop (length l - 10)%nat l.
Proof.
  unfold slice, adjust_index. simpl.
  replace (Z.to_nat (Z.max 0 (-10 + Z.of_nat (length l))))
    with (length l - 10)%nat by lia.
  apply take_ge. rewrite length_drop. lia.
Qed.

Lemma slice_last_10_but_newest {A} (l : list A) :
  slice l (Some (-10)) (Some (-1))
  = take (Nat.min (length l) 10 - 1)%nat (drop (length l - 10)%nat l).
Proof.
  unfold slice, adjust_index. simpl.
  replace (Z.to_nat (Z.max 0 (-10 + Z.of_nat (length l))))
    with (length l - 10)%nat by lia.
  f_equal. lia.
Qed.

Lemma slice_last_10_length {A} (l : list A) :
  length (slice l (Some (-10)) None) = Nat.min (length l) 10.
Proof. rewrite slice_last_10, length_drop. lia. Qed.

Lemma slice_last_10_suffix {A} (l : list A) :
  slice l (Some (-10)) None `suffix_of` l.
Proof. rewrite slice_last_10. apply suffix_drop. Qed.

Lemma slice_last_10_short {A} (l : list A) :
  (length l <= 10)%nat -> slice l (Some (-10)) None = l.
Proof.
  intros H. rewrite slice_last_10.
  replace (length l - 10)%nat with 0%nat by lia. reflexivity.
Qed.

Lemma slice_last_10_but_newest_length {A} (l : list A) :
  length (slice l (Some (-10)) (Some (-1))) = (Nat.min (length l) 10 - 1)%nat.
Proof. rewrite slice_last_10_but_newest, length_take, length_drop. lia. Qed.

(** The window without the newest entry, followed by the newest entry, is
    the window of the last 10. *)
Lemma slice_last_10_but_newest_snoc {A} (l : list A) (newest : A) :
  last l = Some newest ->
  (slice l (Some (-10)) (Some (-1)) ++ [newest])%list
  = slice l (Some (-10)) None.
Proof.
  intros Hlast. rewrite slice_last_10_but_newest, slice_last_10.
  destruct l as [|y l0] using rev_ind; [discriminate|]. clear IHl0.
  rename l0 into l'. rename y into x.
  rewrite last_snoc in Hlast. injection Hlast as ->.
  rewrite length_app. simpl.
  assert (Hd : drop (length l' + 1 - 10)%nat (l' ++ [newest])%list
               = (drop (length l' + 1 - 10)%nat l' ++ [newest])%list).
  { rewrite drop_app_le by lia. reflexivity. }
  rewrite Hd. f_equal.
  rewrite take_app_le by (rewrite length_drop; lia).
  apply take_ge. rewrite length_drop. lia.
Qed.

Lemma slice_last_10_but_newest_sublist {A} (l : list A) :
  slice l (Some (-10)) (Some (-1)) `sublist_of` l.
Proof.
  rewrite slice_last_10_but_newest.
  etransitivity; [apply sublist_take | apply sublist_drop].
Qed.

(** ** The window of an agent *)

Lemma lookup_new {A} (h : list A) (o : A) : (h ++ [o])%list !! length h = Some o.
Proof. apply list_lookup_middle. reflexivity. Qed.

Lemma window_run (c : loc) (stop : option Z) (w : world) (items : list loc) :
  heap w !! c = Some (OList items) ->
  window (Some c) stop w
  = (Ret (length (heap w)),
     World (heap w ++ [OList (slice items (Some (-10)) stop)]) (lm_calls w)).
Proof.
  intros Hc. unfold window, bind, read_list. rewrite Hc.
  destruct items as [|x items]; [|reflexivity].
  unfold alloc, slice. rewrite drop_nil, take_nil. reflexivity.
Qed.

Lemma window_None_run (stop : option Z) (w : world) :
  window None stop w
  = (Ret (length (heap w)), World (heap w ++ [OList []]) (lm_calls w)).
Proof. reflexivity. Qed.

Lemma last_entries_slice (items : list loc) :
  last_entries 10 items (slice items (Some (-10)) None).
Proof.
  split; [apply slice_last_10_length|].
  split; [apply slice_last_10_suffix|].
  intros H. apply slice_last_10_short. lia.
Qed.

Lemma last_entries_but_newest_slice (items : list loc) :
  last_entries_but_newest 10 items (slice items (Some (-10)) (Some (-1))).
Proof.
  split; [apply slice_last_10_but_newest_length|].
  split; [apply slice_last_10_but_newest_sublist|].
  intros newest Hlast. rewrite (slice_last_10_but_newest_snoc _ _ Hlast).
  apply last_entries_slice.
Qed.

(** C2. For a conversation of [L] entries and [K = 10]: the conversation
    held by [AskUserAgent], [GoalAgent] and [OODAPlanAgent] is the last
    [min L K] entries, in their order, and the whole conversation when it
    has fewer than [K] entries; the one held by [ContextValidator] and
    [SynthesizingAgent] is these entries without the newest one. *)
Theorem agents_conversation_window
    (llm : AnLLM) (heuristic : string) (context : option loc)
    (w : world) (c : loc) (items : list loc) :
  heap w !! c = Some (OList items) ->
  holds_window (AskUserAgent_init llm heuristic (Some c))
    AskUserAgent_conversation w (last_entries 10 items)
  /\ holds_window (GoalAgent_init llm (Some c))
       GoalAgent_conversation w (last_entries 10 items)
  /\ holds_window (OODAPlanAgent_init llm (Some c))
       OODAPlanAgent_conversation w (last_entries 10 items)
  /\ holds_window (ContextValidator_init llm (Some c) context)
       ContextValidator_conversation w (last_entries_but_newest 10 items)
  /\ holds_window (SynthesizingAgent_init llm (Some c) context)
       SynthesizingAgent_conversation w (last_entries_but_newest 10 items).
Proof.
  intros Hc. unfold holds_window.
  unfold AskUserAgent_init, GoalAgent_init, OODAPlanAgent_init,
    ContextValidator_init, SynthesizingAgent_init, bind.
  rewrite !(window_run _ _ _ _ Hc). simpl.
  repeat split;
    eexists _, _, _;
    (split; [reflexivity|]); simpl;
    (split; [apply lookup_new|]);
    first [apply last_entries_slice | apply last_entries_but_newest_slice].
Qed.

Lemma agents_conversation_window_witness :
  heap example_world !! 1%nat = Some (OList [0%nat])
  /\ holds_window (ContextValidator_init example_llm (Some 1%nat) None)
       ContextValidator_conversation example_world
       (last_entries_but_newest 10 [0%nat]).
Proof.
  split; [reflexivity|].
  apply (agents_conversation_window example_llm "" None example_world 1%nat
           [0%nat]).
  reflexivity.
Defined.

(** ** Runs of [execute] *)

Lemma index_last {A} (l : list A) (x : A) : index (l ++ [x])%list (-1) = Some x.
Proof.
  unfold index. rewrite length_app. simpl.
  replace (-1 + Z.of_nat (length l + 1)) with (Z.of_nat (length l)) by lia.
  replace (0 <=? Z.of_nat (length l)) with true by (symmetry; apply Z.leb_le; lia).
  replace (Z.of_nat (length l) <? Z.of_nat (length l + 1))
    with true by (symmetry; apply Z.ltb_lt; lia).
  simpl. rewrite Nat2Z.id. apply lookup_new.
Qed.

Lemma sent_lookup_old (w : world) (m : obj) (own : list loc) (l : loc) (o : obj) :
  heap w !! l = Some o -> sent w m own !! l = Some o.
Proof. intros H. unfold sent. apply lookup_app_l_Some. exact H. Qed.

Lemma sent_lookup_message (w : world) (m : obj) (own : list loc) :
  sent w m own !! length (heap w) = Some m.
Proof. unfold sent. apply list_lookup_middle. reflexivity. Qed.

Lemma sent_lookup_list (w : world) (m : obj) (own : list loc) :
  sent w m own !! S (length (heap w)) = Some (OList (own ++ [length (heap w)])).
Proof.
  unfold sent. change [m; OList (own ++ [length (heap w)])]
    with ([m] ++ [OList (own ++ [length (heap w)])])%list.
  rewrite app_assoc.
  replace (S (length (heap w))) with (length (heap w ++ [m])%list)
    by (rewrite length_app; simpl; lia).
  apply lookup_new.
Qed.

(** The common start of every [execute]: allocate the system message, build
    the list to send, call the LM. *)
Lemma send_run {A} (llm : AnLLM) (conversation : loc)
    (new_message : M world loc) (m : obj)
    (k : loc -> string -> M world A) (w : world) (own : list loc) :
  new_message w = alloc m w ->
  heap w !! conversation = Some (OList own) ->
  (let* system_message := new_message in
   let* own := read_list conversation in
   let* conversation := alloc (OList (own ++ [system_message])) in
   let* json_str := llm_call llm conversation in
   k conversation json_str) w
  = k (S (length (heap w))) (llm (sent w m own) (S (length (heap w))))
      (World (sent w m own) (lm_calls w ++ [S (length (heap w))])).
Proof.
  intros Hm Hc. unfold bind at 1. rewrite Hm. unfold alloc at 1.
  unfold bind at 1. unfold read_list. simpl.
  rewrite (lookup_app_l_Some _ _ _ _ Hc).
  unfold bind at 1. unfold alloc. simpl.
  unfold bind, llm_call. simpl.
  unfold sent. rewrite length_app, <- app_assoc. simpl.
  replace (length (heap w) + 1)%nat with (S (length (heap w))) by lia.
  reflexivity.
Qed.

Section Executes.

Variable json_loads : string -> option pyval.
Variable prompts : BuiltInAgentPrompt.

Lemma GoalAgent_execute_run (self : GoalAgent) (task : string) (w : world)
    (own : list loc) :
  heap w !! GoalAgent_conversation self = Some (OList own) ->
  let m := message AgentRole_SYSTEM (PROBLEM_STATEMENT prompts) in
  GoalAgent_execute json_loads prompts self task w
  = (match json_loads (GoalAgent_llm self (sent w m own) (S (length (heap w)))) with
     | Some (VDict d) => Ret (dict_get_default d "problem statement" (VStr ""))
     | Some _ => Raise AttributeError
     | None => Ret (VStr (PROBLEM_STATEMENT prompts))
     end,
     World (sent w m own) (lm_calls w ++ [S (length (heap w))])).
Proof.
  intros Hc m. unfold GoalAgent_execute.
  etransitivity; [exact (send_run _ _ _ m _ _ _ eq_refl Hc)|].
  unfold try_except_JSONDecodeError, bind, json_loads_m.
  destruct (json_loads _) as [[]|]; simpl; try reflexivity.
  unfold list_index, bind, read_list, raise. simpl.
  rewrite sent_lookup_list, index_last. unfold ret, obj_get. simpl.
  rewrite sent_lookup_message. reflexivity.
Qed.

Lemma AskUserAgent_execute_run (self : AskUserAgent) (task : string)
    (w : world) (own : list loc) :
  heap w !! AskUserAgent_conversation self = Some (OList own) ->
  AskUserAgent_ask_user_heuristic self <> "" ->
  let m := message AgentRole_SYSTEM
             (ASK_USER prompts task (AskUserAgent_ask_user_heuristic self)) in
  AskUserAgent_execute json_loads prompts self task w
  = (match json_loads (AskUserAgent_llm self (sent w m own) (S (length (heap w)))) with
     | Some (VDict d) => Ret (dict_get_default d "question" (VStr ""))
     | Some _ => Raise AttributeError
     | None => Ret (VStr "")
     end,
     World (sent w m own) (lm_calls w ++ [S (length (heap w))])).
Proof.
  intros Hc Hh m. unfold AskUserAgent_execute, str_truthy.
  destruct (String.eqb_spec (AskUserAgent_ask_user_heuristic self) "")
    as [He|_]; [contradiction|]. simpl.
  etransitivity; [exact (send_run _ _ _ m _ _ _ eq_refl Hc)|].
  unfold try_except_JSONDecodeError, bind, json_loads_m.
  destruct (json_loads _) as [[]|]; reflexivity.
Qed.

Lemma AskUserAgent_execute_short_circuit (self : AskUserAgent) (task : string)
    (w : world) :
  AskUserAgent_ask_user_heuristic self = "" ->
  AskUserAgent_execute json_loads prompts self task w = (Ret (VStr ""), w).
Proof.
  intros He. unfold AskUserAgent_execute. rewrite He. reflexivity.
Qed.

Lemma ContextValidator_execute_run (self : ContextValidator) (task : string)
    (w : world) (own : list loc) :
  heap w !! ContextValidator_conversation self = Some (OList own) ->
  let m := message "system"
             (CONTENT_VALIDATION prompts (heap w)
                (ContextValidator_context self) task) in
  ContextValidator_execute json_loads prompts self task w
  = (match json_loads (ContextValidator_llm self (sent w m own) (S (length (heap w)))) with
     | Some jobject => Ret jobject
     | None => Ret (VDict [])
     end,
     World (sent w m own) (lm_calls w ++ [S (length (heap w))])).
Proof.
  intros Hc m. unfold ContextValidator_execute.
  etransitivity; [exact (send_run _ _ _ m _ _ _ eq_refl Hc)|].
  unfold try_except_JSONDecodeError, bind, json_loads_m.
  destruct (json_loads _); reflexivity.
Qed.

Lemma SynthesizingAgent_execute_run (self : SynthesizingAgent) (task : string)
    (w : world) (own : list loc) :
  heap w !! SynthesizingAgent_conversation self = Some (OList own) ->
  let m := message "system"
             (SYNTHESIZE_RESULT prompts (heap w)
                (SynthesizingAgent_context self) task) in
  SynthesizingAgent_execute json_loads prompts self task w
  = (match json_loads (SynthesizingAgent_llm self (sent w m own) (S (length (heap w)))) with
     | Some jobject => Ret jobject
     | None => Ret (VDict [])
     end,
     World (sent w m own) (lm_calls w ++ [S (length (heap w))])).
Proof.
  intros Hc m. unfold SynthesizingAgent_execute.
  etransitivity; [exact (send_run _ _ _ m _ _ _ eq_refl Hc)|].
  unfold try_except_JSONDecodeError, json_loads_m.
  destruct (json_loads _); reflexivity.
Qed.

Lemma OODAPlanAgent_execute_run (self : OODAPlanAgent) (task : string)
    (w : world) (own : list loc) :
  heap w !! OODAPlanAgent_conversation self = Some (OList own) ->
  let m := message "system" (GENERATE_OODA_PLAN prompts) in
  OODAPlanAgent_execute json_loads prompts self task w
  = (match json_loads (OODAPlanAgent_llm self (sent w m own) (S (length (heap w)))) with
     | Some jobject => Ret jobject
     | None => Ret (VDict [])
     end,
     World (sent w m own) (lm_calls w ++ [S (length (heap w))])).
Proof.
  intros Hc m. unfold OODAPlanAgent_execute.
  etransitivity; [exact (send_run _ _ _ m _ _ _ eq_refl Hc)|].
  unfold try_except_JSONDecodeError, json_loads_m.
  destruct (json_loads _); reflexivity.
Qed.

End Executes.

(** ** Runs of [__init__] *)

Lemma window_ok_run (conversation : option loc) (stop : option Z) (w : world) :
  is_conversation w conversation = true ->
  window conversation stop w
  = (Ret (length (heap w)),
     World (heap w ++ [OList (window_items w conversation stop)]) (lm_calls w)).
Proof.
  destruct conversation as [c|]; [|reflexivity].
  unfold is_conversation, window_items.
  destruct (heap w !! c) as [[items|]|] eqn:Hc; try discriminate.
  intros _. apply window_run. exact Hc.
Qed.

(** ** The store is only extended *)

Lemma preserves_ret {A} (a : A) : preserves_store (ret a).
Proof. intros w l o H. exact H. Qed.

Lemma preserves_raise {A} (e : exn) : preserves_store (@raise world A e).
Proof. intros w l o H. exact H. Qed.

Lemma preserves_alloc_with (f : world -> obj) :
  preserves_store (fun w => alloc (f w) w).
Proof. intros w l o H. simpl. apply lookup_app_l_Some. exact H. Qed.

Lemma preserves_alloc (x : obj) : preserves_store (alloc x).
Proof. exact (preserves_alloc_with (fun _ => x)). Qed.

Lemma preserves_read_list (l : loc) : preserves_store (read_list l).
Proof.
  intros w l' o H. unfold read_list.
  destruct (heap w !! l) as [[|]|]; exact H.
Qed.

Lemma preserves_obj_get (m : loc) (k : string) (d : pyval) :
  preserves_store (obj_get m k d).
Proof.
  intros w l' o H. unfold obj_get.
  destruct (heap w !! m) as [[|]|]; exact H.
Qed.

Lemma preserves_val_get (j : pyval) (k : string) (d : pyval) :
  preserves_store (@val_get world j k d).
Proof. destruct j; intros w l' o H; exact H. Qed.

Lemma preserves_llm_call (llm : AnLLM) (m : loc) : preserves_store (llm_call llm m).
Proof. intros w l o H. exact H. Qed.

Lemma preserves_json_loads_m (json_loads : string -> option pyval) (s : string) :
  preserves_store (@json_loads_m json_loads world s).
Proof.
  unfold json_loads_m. destruct (json_loads s); intros w l' o H; exact H.
Qed.

Lemma preserves_bind {A B} (c : M world A) (k : A -> M world B) :
  preserves_store c -> (forall a, preserves_store (k a)) ->
  preserves_store (bind c k).
Proof.
  intros Hc Hk w l o H. unfold bind.
  specialize (Hc w l o H). destruct (c w) as [[a|e] w1]; simpl in *.
  - apply Hk. exact Hc.
  - exact Hc.
Qed.

Lemma preserves_try {A} (body handler : M world A) :
  preserves_store body -> preserves_store handler ->
  preserves_store (try_except_JSONDecodeError body handler).
Proof.
  intros Hb Hh w l o H. unfold try_except_JSONDecodeError.
  specialize (Hb w l o H). destruct (body w) as [[a|[]] w1]; simpl in *;
    try exact Hb.
  apply Hh. exact Hb.
Qed.

Lemma preserves_list_index (l : loc) (i : Z) : preserves_store (list_index l i).
Proof.
  unfold list_index. apply preserves_bind; [apply preserves_read_list|].
  intros items. destruct (index items i);
    [apply preserves_ret | apply preserves_raise].
Qed.

Lemma preserves_window (conversation : option loc) (stop : option Z) :
  preserves_store (window conversation stop).
Proof.
  destruct conversation as [c|]; simpl; [|apply preserves_alloc].
  apply preserves_bind; [apply preserves_read_list|].
  intros [|x items]; apply preserves_alloc.
Qed.

Create HintDb store.
#[local] Hint Resolve preserves_ret preserves_raise preserves_alloc
  preserves_alloc_with preserves_read_list preserves_obj_get
  preserves_val_get preserves_llm_call preserves_json_loads_m
  preserves_list_index preserves_window : store.

Ltac preserves :=
  repeat lazymatch goal with
    | |- preserves_store (bind _ _) => apply preserves_bind; [|intros ?]
    | |- preserves_store (try_except_JSONDecodeError _ _) => apply preserves_try
    | |- preserves_store _ => solve [auto with store]
    end.

Lemma new_ref_sent (w : world) (x : loc) :
  x ∈ drop (length (lm_calls w)) (lm_calls w ++ [S (length (heap w))])%list ->
  heap w !! x = None.
Proof.
  rewrite drop_app_length. intros Hx. apply list_elem_of_singleton in Hx.
  subst x. apply lookup_ge_None_2. lia.
Qed.

Lemma no_ref_sent (w : world) (x : loc) :
  x ∈ drop (length (lm_calls w)) (lm_calls w) -> heap w !! x = None.
Proof. rewrite drop_all. intros Hx. apply elem_of_nil in Hx. contradiction. Qed.

(** When the conversation of the agent is not a list, concatenating it with
    the system message raises before the LM is called. *)
Lemma send_run_not_list {A} (llm : AnLLM) (conversation : loc)
    (new_message : M world loc) (d : dict pyval)
    (k : loc -> string -> M world A) (w : world) :
  new_message w = alloc (ODict d) w ->
  (forall own, heap w !! conversation <> Some (OList own)) ->
  (let* system_message := new_message in
   let* own := read_list conversation in
   let* conversation := alloc (OList (own ++ [system_message])) in
   let* json_str := llm_call llm conversation in
   k conversation json_str) w
  = (Raise TypeError, World (heap w ++ [ODict d]) (lm_calls w)).
Proof.
  intros Hm Hn. unfold bind at 1. rewrite Hm. unfold alloc at 1.
  unfold bind at 1. unfold read_list. simpl.
  destruct ((heap w ++ [ODict d])%list !! conversation) as [[own|d']|] eqn:E;
    try reflexivity.
  exfalso. apply lookup_app_Some in E as [E | [_ E]].
  - exact (Hn own E).
  - destruct (conversation - length (heap w))%nat; simpl in E; discriminate.
Qed.

Ltac not_a_list Hc :=
  erewrite send_run_not_list;
  [ simpl; apply no_ref_sent
  | reflexivity
  | intros ?; rewrite Hc; discriminate ].

Section Frame.

Variable json_loads : string -> option pyval.
Variable prompts : BuiltInAgentPrompt.

Lemma GoalAgent_execute_sends_new (self : GoalAgent) (task : string) :
  sends_new_lists (GoalAgent_execute json_loads prompts self task).
Proof.
  intros w x.
  destruct (heap w !! GoalAgent_conversation self) as [[own|d]|] eqn:Hc.
  - rewrite (GoalAgent_execute_run _ _ _ _ _ _ Hc). apply new_ref_sent.
  - unfold GoalAgent_execute. not_a_list Hc.
  - unfold GoalAgent_execute. not_a_list Hc.
Qed.

Lemma AskUserAgent_execute_sends_new (self : AskUserAgent) (task : string) :
  sends_new_lists (AskUserAgent_execute json_loads prompts self task).
Proof.
  intros w x.
  destruct (String.eqb_spec (AskUserAgent_ask_user_heuristic self) "")
    as [He|Hne].
  { rewrite (AskUserAgent_execute_short_circuit _ _ _ _ _ He).
    apply no_ref_sent. }
  destruct (heap w !! AskUserAgent_conversation self) as [[own|d]|] eqn:Hc.
  - rewrite (AskUserAgent_execute_run _ _ _ _ _ _ Hc Hne). apply new_ref_sent.
  - unfold AskUserAgent_execute, str_truthy.
    rewrite (proj2 (String.eqb_neq _ _) Hne). simpl. not_a_list Hc.
  - unfold AskUserAgent_execute, str_truthy.
    rewrite (proj2 (String.eqb_neq _ _) Hne). simpl. not_a_list Hc.
Qed.

Lemma ContextValidator_execute_sends_new (self : ContextValidator)
    (task : string) :
  sends_new_lists (ContextValidator_execute json_loads prompts self task).
Proof.
  intros w x.
  destruct (heap w !! ContextValidator_conversation self) as [[own|d]|] eqn:Hc.
  - rewrite (ContextValidator_execute_run _ _ _ _ _ _ Hc). apply new_ref_sent.
  - unfold ContextValidator_execute. not_a_list Hc.
  - unfold ContextValidator_execute. not_a_list Hc.
Qed.

Lemma SynthesizingAgent_execute_sends_new (self : SynthesizingAgent)
    (task : string) :
  sends_new_lists (SynthesizingAgent_execute json_loads prompts self task).
Proof.
  intros w x.
  destruct (heap w !! SynthesizingAgent_conversation self) as [[own|d]|] eqn:Hc.
  - rewrite (SynthesizingAgent_execute_run _ _ _ _ _ _ Hc). apply new_ref_sent.
  - unfold SynthesizingAgent_execute. not_a_list Hc.
  - unfold SynthesizingAgent_execute. not_a_list Hc.
Qed.

Lemma OODAPlanAgent_execute_sends_new (self : OODAPlanAgent) (task : string) :
  sends_new_lists (OODAPlanAgent_execute json_loads prompts self task).
Proof.
  intros w x.
  destruct (heap w !! OODAPlanAgent_conversation self) as [[own|d]|] eqn:Hc.
  - rewrite (OODAPlanAgent_execute_run _ _ _ _ _ _ Hc). apply new_ref_sent.
  - unfold OODAPlanAgent_execute. not_a_list Hc.
  - unfold OODAPlanAgent_execute. not_a_list Hc.
Qed.

Lemma AskUserAgent_execute_preserves (self : AskUserAgent) (task : string) :
  preserves_store (AskUserAgent_execute json_loads prompts self task).
Proof.
  unfold AskUserAgent_execute.
  destruct (negb _); [apply preserves_ret | preserves].
Qed.

Lemma GoalAgent_execute_preserves (self : GoalAgent) (task : string) :
  preserves_store (GoalAgent_execute json_loads prompts self task).
Proof. unfold GoalAgent_execute. preserves. Qed.

Lemma ContextValidator_execute_preserves (self : ContextValidator)
    (task : string) :
  preserves_store (ContextValidator_execute json_loads prompts self task).
Proof. unfold ContextValidator_execute. preserves. Qed.

Lemma SynthesizingAgent_execute_preserves (self : SynthesizingAgent)
    (task : string) :
  preserves_store (SynthesizingAgent_execute json_loads prompts self task).
Proof. unfold SynthesizingAgent_execute. preserves. Qed.

Lemma OODAPlanAgent_execute_preserves (self : OODAPlanAgent) (task : string) :
  preserves_store (OODAPlanAgent_execute json_loads prompts self task).
Proof. unfold OODAPlanAgent_execute. preserves. Qed.

End Frame.

Lemma window_new (conversation : option loc) (stop : option Z)
    (w w' : world) (l : loc) :
  window conversation stop w = (Ret l, w') ->
  heap w !! l = None /\ exists items, heap w' !! l = Some (OList items).
Proof.
  assert (Hnew : forall items,
    alloc (OList items) w = (Ret l, w') ->
    heap w !! l = None /\ exists items, heap w' !! l = Some (OList items)).
  { intros items [= <- <-]. split.
    - apply lookup_ge_None_2. lia.
    - exists items. apply lookup_new. }
  destruct conversation as [c|]; simpl; [|apply Hnew].
  unfold bind, read_list.
  destruct (heap w !! c) as [[[|x items]|d]|]; try discriminate; apply Hnew.
Qed.

(** Every [__init__] is [window] followed by the construction of the
    record. *)
Lemma init_returns_new {A} (conversation : option loc) (stop : option Z)
    (mk : loc -> A) (conversation_of : A -> loc) :
  (forall l, conversation_of (mk l) = l) ->
  returns_new_list (let* c := window conversation stop in ret (mk c))
    conversation_of.
Proof.
  intros Hmk w a w'. unfold bind, ret.
  destruct (window conversation stop w) as [[l|e] w1] eqn:Hw; [|discriminate].
  intros [= <- <-]. rewrite Hmk. exact (window_new _ _ _ _ _ Hw).
Qed.

Lemma init_preserves {A} (conversation : option loc) (stop : option Z)
    (mk : loc -> A) :
  preserves_store (let* c := window conversation stop in ret (mk c)).
Proof. preserves. Qed.

(** ** The agents and the store of the caller *)

(** C8. Neither the construction of any of the five agents nor a call of
    its [execute] changes an object of the caller: the conversation list
    and every message in it are afterwards what they were; the agent holds
    a new list (the window) and sends another new list (the window with
    the system message appended). *)
Theorem agents_read_only
    (json_loads : string -> option pyval) (prompts : BuiltInAgentPrompt)
    (llm : AnLLM) (heuristic : string) (context : option loc) :
  reads_only (AskUserAgent_init llm heuristic) AskUserAgent_conversation
    (AskUserAgent_execute json_loads prompts)
  /\ reads_only (GoalAgent_init llm) GoalAgent_conversation
       (GoalAgent_execute json_loads prompts)
  /\ reads_only (fun conversation => ContextValidator_init llm conversation context)
       ContextValidator_conversation
       (ContextValidator_execute json_loads prompts)
  /\ reads_only (fun conversation => SynthesizingAgent_init llm conversation context)
       SynthesizingAgent_conversation
       (SynthesizingAgent_execute json_loads prompts)
  /\ reads_only (OODAPlanAgent_init llm) OODAPlanAgent_conversation
       (OODAPlanAgent_execute json_loads prompts).
Proof.
  unfold reads_only.
  repeat match goal with
    | |- _ /\ _ => split
    | |- forall _, _ => intros ?
    end;
    first
      [ apply init_preserves
      | apply init_returns_new; reflexivity
      | apply AskUserAgent_execute_preserves
      | apply AskUserAgent_execute_sends_new
      | apply GoalAgent_execute_preserves
      | apply GoalAgent_execute_sends_new
      | apply ContextValidator_execute_preserves
      | apply ContextValidator_execute_sends_new
      | apply SynthesizingAgent_execute_preserves
      | apply SynthesizingAgent_execute_sends_new
      | apply OODAPlanAgent_execute_preserves
      | apply OODAPlanAgent_execute_sends_new ].
Qed.

(** The caller's list and its message after a [GoalAgent] was constructed
    on it and executed. *)
Example caller_conversation_after_goal_agent :
  let w' := snd (construct_and_execute (GoalAgent_init example_llm (Some 1%nat))
                   (GoalAgent_execute decode_empty_object_only example_prompts)
                   "task" example_world) in
  take 2 (heap w') = heap example_world /\ length (heap w') = 5%nat.
Proof. split; reflexivity. Qed.

(** ** Fallbacks *)

(** C1. When the completion is not JSON, [GoalAgent.execute] returns the
    content of the last entry of the list it sent, which is the system
    message it appended itself: the text of the problem-statement prompt,
    whatever the conversation of the caller holds. *)
Theorem GoalAgent_fallback_is_system_prompt
    (json_loads : string -> option pyval) (prompts : BuiltInAgentPrompt)
    (llm : AnLLM) (conversation : option loc) (task : string) (w : world) :
  is_conversation w conversation = true ->
  (forall h m, json_loads (llm h m) = None) ->
  fst (construct_and_execute (GoalAgent_init llm conversation)
         (GoalAgent_execute json_loads prompts) task w)
  = Ret (VStr (PROBLEM_STATEMENT prompts)).
Proof.
  intros Hconv Hbad. unfold construct_and_execute, GoalAgent_init.
  unfold bind at 1. unfold bind at 1.
  rewrite (window_ok_run _ _ _ Hconv). unfold ret at 1.
  erewrite GoalAgent_execute_run by (simpl; apply lookup_new).
  simpl. rewrite Hbad. reflexivity.
Qed.

Lemma GoalAgent_fallback_is_system_prompt_witness :
  is_conversation example_world (Some 1%nat) = true
  /\ (forall h m, decode_empty_object_only (example_llm h m) = None)
  /\ original_last_content example_world 1%nat
     = Some (VStr "What is the revenue?")
  /\ fst (construct_and_execute (GoalAgent_init example_llm (Some 1%nat))
            (GoalAgent_execute decode_empty_object_only example_prompts)
            "task" example_world)
     = Ret (VStr "Derive the problem statement.").
Proof.
  split; [reflexivity|]. split; [intros h m; reflexivity|].
  split; [reflexivity|].
  apply (GoalAgent_fallback_is_system_prompt decode_empty_object_only
           example_prompts example_llm (Some 1%nat) "task" example_world).
  - reflexivity.
  - intros h m. reflexivity.
Defined.

Section Fallbacks.

Variable json_loads : string -> option pyval.
Variable prompts : BuiltInAgentPrompt.
Variable llm : AnLLM.
Hypothesis not_json : forall h m, json_loads (llm h m) = None.

Variables (conversation context : option loc) (task : string) (w : world).
Hypothesis conversation_ok : is_conversation w conversation = true.

(** With a completion that is not JSON, [AskUserAgent.execute] returns the
    empty text. *)
Lemma AskUserAgent_fallback (heuristic : string) :
  fst (construct_and_execute (AskUserAgent_init llm heuristic conversation)
         (AskUserAgent_execute json_loads prompts) task w)
  = Ret (VStr "").
Proof.
  unfold construct_and_execute, AskUserAgent_init.
  unfold bind at 1. unfold bind at 1.
  rewrite (window_ok_run _ _ _ conversation_ok). unfold ret at 1.
  destruct (String.eqb_spec (strip heuristic) "") as [He|Hne].
  - rewrite AskUserAgent_execute_short_circuit by exact He. reflexivity.
  - erewrite AskUserAgent_execute_run;
      [|simpl; apply lookup_new|exact Hne].
    simpl. rewrite not_json. reflexivity.
Qed.

(** With a completion that is not JSON, [ContextValidator.execute],
    [SynthesizingAgent.execute] and [OODAPlanAgent.execute] return the empty
    dict. *)
Lemma ContextValidator_fallback :
  fst (construct_and_execute (ContextValidator_init llm conversation context)
         (ContextValidator_execute json_loads prompts) task w)
  = Ret (VDict []).
Proof.
  unfold construct_and_execute, ContextValidator_init.
  unfold bind at 1. unfold bind at 1.
  rewrite (window_ok_run _ _ _ conversation_ok). unfold ret at 1.
  erewrite ContextValidator_execute_run by (simpl; apply lookup_new).
  simpl. rewrite not_json. reflexivity.
Qed.

Lemma SynthesizingAgent_fallback :
  fst (construct_and_execute (SynthesizingAgent_init llm conversation context)
         (SynthesizingAgent_execute json_loads prompts) task w)
  = Ret (VDict []).
Proof.
  unfold construct_and_execute, SynthesizingAgent_init.
  unfold bind at 1. unfold bind at 1.
  rewrite (window_ok_run _ _ _ conversation_ok). unfold ret at 1.
  erewrite SynthesizingAgent_execute_run by (simpl; apply lookup_new).
  simpl. rewrite not_json. reflexivity.
Qed.

Lemma OODAPlanAgent_fallback :
  fst (construct_and_execute (OODAPlanAgent_init llm conversation)
         (OODAPlanAgent_execute json_loads prompts) task w)
  = Ret (VDict []).
Proof.
  unfold construct_and_execute, OODAPlanAgent_init.
  unfold bind at 1. unfold bind at 1.
  rewrite (window_ok_run _ _ _ conversation_ok). unfold ret at 1.
  erewrite OODAPlanAgent_execute_run by (simpl; apply lookup_new).
  simpl. rewrite not_json. reflexivity.
Qed.

End Fallbacks.

(** C4. On the conversation that ends with the user message "What is the
    revenue?" and with the completion "I cannot answer", which is not JSON,
    no [execute] raises; [AskUserAgent] returns the empty text,
    [ContextValidator], [SynthesizingAgent] and [OODAPlanAgent] return the
    empty dict, and [GoalAgent] returns the text of its own system prompt,
    not the text of the last message of the conversation. *)
Theorem fallbacks_on_invalid_json :
  let conversation := Some 1%nat in
  let json_loads := decode_empty_object_only in
  json_loads "I cannot answer" = None
  /\ original_last_content example_world 1%nat
     = Some (VStr "What is the revenue?")
  /\ fst (construct_and_execute
            (AskUserAgent_init example_llm "ask if ambiguous" conversation)
            (AskUserAgent_execute json_loads example_prompts)
            "task" example_world)
     = Ret (VStr "")
  /\ fst (construct_and_execute (GoalAgent_init example_llm conversation)
            (GoalAgent_execute json_loads example_prompts)
            "task" example_world)
     = Ret (VStr (PROBLEM_STATEMENT example_prompts))
  /\ fst (construct_and_execute
            (ContextValidator_init example_llm conversation None)
            (ContextValidator_execute json_loads example_prompts)
            "task" example_world)
     = Ret (VDict [])
  /\ fst (construct_and_execute
            (SynthesizingAgent_init example_llm conversation None)
            (SynthesizingAgent_execute json_loads example_prompts)
            "task" example_world)
     = Ret (VDict [])
  /\ fst (construct_and_execute (OODAPlanAgent_init example_llm conversation)
            (OODAPlanAgent_execute json_loads example_prompts)
            "task" example_world)
     = Ret (VDict []).
Proof. repeat split; vm_compute; reflexivity. Qed.

(** ** Whitespace heuristics *)

Lemma lstrip_all_space (s : string) : all_space s = true -> lstrip s = "".
Proof.
  induction s as [|c s IH]; simpl; [reflexivity|].
  intros H. apply andb_prop in H as [Hc Hs]. rewrite Hc. apply IH, Hs.
Qed.

Lemma strip_all_space (s : string) : all_space s = true -> strip s = "".
Proof. intros H. unfold strip. rewrite (lstrip_all_space _ H). reflexivity. Qed.

(** C10. A heuristic made of whitespace only is stripped to the empty
    string by the constructor: the agent is the one built with the empty
    heuristic, and [execute] returns the empty text without invoking the
    LM, for any task. *)
Theorem AskUserAgent_whitespace_heuristic
    (json_loads : string -> option pyval) (prompts : BuiltInAgentPrompt)
    (llm : AnLLM) (heuristic : string) (conversation : option loc)
    (task : string) (w : world) :
  all_space heuristic = true ->
  let run h := construct_and_execute (AskUserAgent_init llm h conversation)
                 (AskUserAgent_execute json_loads prompts) task in
  AskUserAgent_init llm heuristic conversation w
  = AskUserAgent_init llm "" conversation w
  /\ run heuristic w = run "" w
  /\ (is_conversation w conversation = true ->
      fst (run heuristic w) = Ret (VStr "")
      /\ lm_invocations (run heuristic) w = 0%nat).
Proof.
  intros Hs run.
  assert (Hinit : AskUserAgent_init llm heuristic conversation
                  = AskUserAgent_init llm "" conversation).
  { unfold AskUserAgent_init. rewrite (strip_all_space _ Hs). reflexivity. }
  split; [rewrite Hinit; reflexivity|].
  split; [unfold run; rewrite Hinit; reflexivity|].
  intros Hconv. unfold run, lm_invocations, construct_and_execute.
  rewrite Hinit. unfold AskUserAgent_init.
  unfold bind at 1 3. unfold bind at 1 2.
  rewrite (window_ok_run _ _ _ Hconv). unfold ret at 1 2.
  rewrite !AskUserAgent_execute_short_circuit by reflexivity.
  simpl. split; [reflexivity|lia].
Qed.

Lemma AskUserAgent_whitespace_heuristic_witness :
  let heuristic := String " " (String "009" (String "010" " ")) in
  all_space heuristic = true
  /\ lm_invocations
       (construct_and_execute
          (AskUserAgent_init example_llm heuristic (Some 1%nat))
          (AskUserAgent_execute decode_empty_object_only example_prompts)
          "task")
       example_world = 0%nat.
Proof.
  intros heuristic. split; [reflexivity|].
  apply (AskUserAgent_whitespace_heuristic decode_empty_object_only
           example_prompts example_llm heuristic (Some 1%nat) "task"
           example_world); reflexivity.
Defined.

(** ** Dicts *)

Lemma dict_get_set_eq {V} (d : dict V) (k : string) (v : V) :
  dict_get (dict_set d k v) k = Some v.
Proof.
  induction d as [|[k' v'] d IH]; simpl.
  - rewrite String.eqb_refl. reflexivity.
  - destruct (String.eqb k' k) eqn:E; simpl; rewrite E; [reflexivity|exact IH].
Qed.

Lemma dict_get_set_ne {V} (d : dict V) (k k' : string) (v : V) :
  k <> k' -> dict_get (dict_set d k v) k' = dict_get d k'.
Proof.
  intros Hne. induction d as [|[k0 v0] d IH]; simpl.
  - rewrite (proj2 (String.eqb_neq _ _) Hne). reflexivity.
  - destruct (String.eqb k0 k) eqn:E; simpl.
    + apply String.eqb_eq in E. subst k0.
      rewrite (proj2 (String.eqb_neq _ _) Hne). reflexivity.
    + rewrite IH. reflexivity.
Qed.

(** Setting the same key in two dicts with the same keys leaves them with
    the same keys. *)
Lemma dict_keys_set {U V} (d1 : dict U) (d2 : dict V) (k : string)
    (u : U) (v : V) :
  dict_keys d1 = dict_keys d2 ->
  dict_keys (dict_set d1 k u) = dict_keys (dict_set d2 k v).
Proof.
  revert d2. induction d1 as [|[k1 u1] d1 IH]; intros [|[k2 v2] d2]; simpl;
    try discriminate; [reflexivity|].
  intros [= <- Hk]. destruct (String.eqb k1 k); simpl.
  - rewrite Hk. reflexivity.
  - rewrite (IH d2 Hk). reflexivity.
Qed.

(** ** Program Space *)

Section ProgramSpaceProps.

Variables AProgram Knowledge LMChatHist : Type.
Variable knowledge_injection_lm_chat_msgs : list Knowledge -> LMChatHist.
Variable PROGRAM_SEARCH_PROMPT_TEMPLATE :
  string -> dict string -> string -> string.
Variable json_dumps : dict string -> string.

Abbreviation Space := (ProgramSpace AProgram LMChatHist).
Abbreviation find := (find_program knowledge_injection_lm_chat_msgs
                    PROGRAM_SEARCH_PROMPT_TEMPLATE json_dumps).
Abbreviation prompt_of := (search_prompt PROGRAM_SEARCH_PROMPT_TEMPLATE json_dumps).
Abbreviation response_of := (search_response knowledge_injection_lm_chat_msgs
                           PROGRAM_SEARCH_PROMPT_TEMPLATE json_dumps).

Lemma add_or_update_program_lookup (self : Space) (name d : string)
    (p : AProgram) :
  dict_get (descriptions (add_or_update_program self name d p)) name = Some d
  /\ dict_get (programs (add_or_update_program self name d p)) name = Some p.
Proof. split; apply dict_get_set_eq. Qed.

Lemma add_or_update_program_keys (self : Space) (name d : string)
    (p : AProgram) :
  dict_keys (descriptions self) = dict_keys (programs self) ->
  dict_keys (descriptions (add_or_update_program self name d p))
  = dict_keys (programs (add_or_update_program self name d p)).
Proof. intros H. simpl. apply dict_keys_set. exact H. Qed.

Lemma add_or_update_programs_keys (self : Space)
    (calls : list (string * string * AProgram)) :
  dict_keys (descriptions self) = dict_keys (programs self) ->
  dict_keys (descriptions (add_or_update_programs self calls))
  = dict_keys (programs (add_or_update_programs self calls)).
Proof.
  revert self. induction calls as [|[[n d] p] calls IH]; intros self H.
  - exact H.
  - simpl. apply IH. apply add_or_update_program_keys. exact H.
Qed.

Lemma add_or_update_programs_lookup (self : Space)
    (calls : list (string * string * AProgram)) (name : string) :
  dict_get (descriptions (add_or_update_programs self calls)) name
  = match last_upsert calls name with
    | Some r => Some (fst r)
    | None => dict_get (descriptions self) name
    end
  /\ dict_get (programs (add_or_update_programs self calls)) name
     = match last_upsert calls name with
       | Some r => Some (snd r)
       | None => dict_get (programs self) name
       end.
Proof.
  revert self. induction calls as [|[[n d] p] calls IH]; intros self.
  - split; reflexivity.
  - change (add_or_update_programs self ((n, d, p) :: calls))
      with (add_or_update_programs (add_or_update_program self n d p) calls).
    destruct (IH (add_or_update_program self n d p)) as [IHd IHp].
    rewrite IHd, IHp. simpl last_upsert.
    destruct (last_upsert calls name) as [r|]; [split; reflexivity|].
    destruct (String.eqb_spec n name) as [->|Hne].
    + apply add_or_update_program_lookup.
    + split; apply dict_get_set_ne; exact Hne.
Qed.

(** C7. After [add_or_update_program(name, d, p)] on any Program Space,
    [name] has description [d] and program [p]; after any sequence of such
    calls on a new Program Space, every name has the description and the
    program of the last call for it, and the two dicts have the same keys
    (in the same order). *)
Theorem add_or_update_program_last_write_wins
    (lm : AnLM LMChatHist) (self : Space)
    (calls : list (string * string * AProgram))
    (name d : string) (p : AProgram) :
  (dict_get (descriptions (add_or_update_program self name d p)) name = Some d
   /\ dict_get (programs (add_or_update_program self name d p)) name = Some p)
  /\ (let after := add_or_update_programs (ProgramSpace_new lm) calls in
      dict_keys (descriptions after) = dict_keys (programs after)
      /\ dict_get (descriptions after) name = fst <$> last_upsert calls name
      /\ dict_get (programs after) name = snd <$> last_upsert calls name).
Proof.
  split; [apply add_or_update_program_lookup|].
  split; [apply add_or_update_programs_keys; reflexivity|].
  destruct (add_or_update_programs_lookup (ProgramSpace_new lm) calls name)
    as [Hd Hp].
  rewrite Hd, Hp. destruct (last_upsert calls name); split; reflexivity.
Qed.

(** What [find_program] does when resources are given. *)
Lemma find_program_run (problem : string) (knowledge : option (list Knowledge))
    (rs : list AResource) (s : space_state AProgram LMChatHist) :
  find problem knowledge (Some rs) s
  = (let name := response_of (space s) problem knowledge rs in
     if startswith name "NONE" then Ret None
     else match dict_get (programs (space s)) name with
          | Some program => Ret (Some program)
          | None => Raise (KeyError name)
          end,
     SpaceState (space s)
       (lm_requests s
        ++ [(prompt_of (space s) problem rs,
             knowledge_lm_hist knowledge_injection_lm_chat_msgs knowledge)])).
Proof.
  unfold find_program, bind, resource_overviews, ret, get_response,
    programs_getitem, search_response, search_prompt. simpl.
  destruct (startswith _ "NONE"); [reflexivity|]. simpl.
  destruct (dict_get _ _); reflexivity.
Qed.

(** C3. For every registry and every response of the LM, [find_program]
    returns [None] exactly when the response starts with NONE. *)
Theorem find_program_none_iff (problem : string)
    (knowledge : option (list Knowledge)) (rs : list AResource)
    (s : space_state AProgram LMChatHist) :
  fst (find problem knowledge (Some rs) s) = Ret None
  <-> startswith (response_of (space s) problem knowledge rs) "NONE" = true.
Proof.
  rewrite find_program_run. simpl.
  destruct (startswith _ "NONE").
  - split; reflexivity.
  - split; [|discriminate].
    destruct (dict_get _ _); discriminate.
Qed.

(** The prompt is rendered from the problem, the overviews of the given
    resources and the serialized descriptions, and it is the one request
    sent to the LM. *)
Lemma find_program_request (problem : string)
    (knowledge : option (list Knowledge)) (rs : list AResource)
    (s : space_state AProgram LMChatHist) :
  lm_requests (snd (find problem knowledge (Some rs) s))
  = (lm_requests s
     ++ [(PROGRAM_SEARCH_PROMPT_TEMPLATE problem (overviews_of rs)
            (json_dumps (descriptions (space s))),
          knowledge_lm_hist knowledge_injection_lm_chat_msgs knowledge)])%list.
Proof. rewrite find_program_run. reflexivity. Qed.

(** C5. When [resources] is omitted, it is [None]: the dict comprehension
    over it raises TypeError, so no prompt is rendered and no request
    reaches the LM. *)
Theorem find_program_without_resources (problem : string)
    (knowledge : option (list Knowledge))
    (s : space_state AProgram LMChatHist) :
  find problem knowledge None s = (Raise TypeError, s).
Proof. reflexivity. Qed.

(** C9. When the response does not start with NONE and is not a key of
    [programs], [find_program] raises KeyError on it, and the Program Space
    is what it was. *)
Theorem find_program_unregistered (problem : string)
    (knowledge : option (list Knowledge)) (rs : list AResource)
    (s : space_state AProgram LMChatHist) :
  let name := response_of (space s) problem knowledge rs in
  startswith name "NONE" = false ->
  dict_get (programs (space s)) name = None ->
  fst (find problem knowledge (Some rs) s) = Raise (KeyError name)
  /\ space (snd (find problem knowledge (Some rs) s)) = space s.
Proof.
  intros name Hnone Hkey. rewrite find_program_run. simpl.
  fold name. rewrite Hnone, Hkey. split; reflexivity.
Qed.

End ProgramSpaceProps.

Lemma find_program_unregistered_witness :
  let lm : string -> option unit -> string := fun _ _ => "cashflow-plan" in
  let s := SpaceState (example_space lm) [] in
  let find :=
    find_program (AProgram := nat) (Knowledge := unit)
      (fun _ => tt) (fun problem _ descriptions => problem ++ descriptions)
      (fun _ => "{}") "What is the free cash flow?" None (Some []) in
  fst (find s) = Raise (KeyError "cashflow-plan")
  /\ space (snd (find s)) = space s.
Proof.
  intros lm s find.
  apply (find_program_unregistered nat unit unit (fun _ => tt)
           (fun problem _ descriptions => problem ++ descriptions)
           (fun _ => "{}") "What is the free cash flow?" None [] s);
    reflexivity.
Defined.

(** The example scenario: the LM names the registered program, or answers
    NONE. *)
Example find_program_scenario :
  let find lm :=
    fst (find_program (AProgram := nat) (Knowledge := unit)
           (fun _ => tt) (fun problem _ descriptions => problem ++ descriptions)
           (fun _ => "{}") "What is the free cash flow?" None (Some [])
           (SpaceState (example_space lm) [])) in
  find (fun _ _ => "cash-flow-plan") = Ret (Some 1%nat)
  /\ find (fun _ _ => "NONE - no suitable program") = Ret None.
Proof. split; reflexivity. Qed.

(** * Further properties *)

(** ** Stripping *)

Lemma lstrip_empty_all_space (s : string) : lstrip s = "" -> all_space s = true.
Proof.
  induction s as [|c s IH]; simpl; [reflexivity|].
  destruct (is_space c); [exact IH | discriminate].
Qed.

Lemma rstrip_empty_all_space (s : string) : rstrip s = "" -> all_space s = true.
Proof.
  induction s as [|c s IH]; simpl; [reflexivity|].
  destruct (rstrip s) as [|c' r]; [|discriminate].
  destruct (is_space c); [intros _; apply IH; reflexivity | discriminate].
Qed.

Lemma lstrip_head (s r : string) (c : ascii) :
  lstrip s = String c r -> is_space c = false.
Proof.
  induction s as [|c0 s IH]; simpl; [discriminate|].
  destruct (is_space c0) eqn:E; [exact IH|].
  intros [= <- _]. exact E.
Qed.

Lemma strip_empty_iff (s : string) : strip s = "" <-> all_space s = true.
Proof.
  split; [|apply strip_all_space].
  unfold strip. intros H. apply rstrip_empty_all_space in H.
  destruct (lstrip s) as [|c r] eqn:E.
  - apply lstrip_empty_all_space. exact E.
  - apply lstrip_head in E. simpl in H. rewrite E in H. discriminate.
Qed.

(** X1. [AskUserAgent] asks the LM exactly when the heuristic it was
    constructed with has a character that is not whitespace: once then, and
    never otherwise. *)
Theorem AskUserAgent_invokes_lm_iff_visible_heuristic
    (json_loads : string -> option pyval) (prompts : BuiltInAgentPrompt)
    (llm : AnLLM) (heuristic : string) (conversation : option loc)
    (task : string) (w : world) :
  is_conversation w conversation = true ->
  lm_invocations
    (construct_and_execute (AskUserAgent_init llm heuristic conversation)
       (AskUserAgent_execute json_loads prompts) task) w
  = if all_space heuristic then 0%nat else 1%nat.
Proof.
  intros Hconv. unfold lm_invocations, construct_and_execute, AskUserAgent_init.
  unfold bind at 1. unfold bind at 1.
  rewrite (window_ok_run _ _ _ Hconv). unfold ret at 1.
  destruct (all_space heuristic) eqn:Hs.
  - rewrite AskUserAgent_execute_short_circuit
      by (simpl; apply strip_all_space; exact Hs).
    simpl. lia.
  - erewrite AskUserAgent_execute_run; [|simpl; apply lookup_new|].
    + simpl. rewrite length_app. simpl. lia.
    + simpl. intros He. apply strip_empty_iff in He. congruence.
Qed.

Lemma AskUserAgent_invokes_lm_iff_visible_heuristic_witness :
  is_conversation example_world (Some 1%nat) = true
  /\ lm_invocations
       (construct_and_execute
          (AskUserAgent_init example_llm "  ask if ambiguous " (Some 1%nat))
          (AskUserAgent_execute decode_empty_object_only example_prompts)
          "task")
       example_world = 1%nat.
Proof.
  split; [reflexivity|].
  apply (AskUserAgent_invokes_lm_iff_visible_heuristic decode_empty_object_only
           example_prompts example_llm "  ask if ambiguous " (Some 1%nat)
           "task" example_world).
  reflexivity.
Defined.

(** ** An agent constructed and executed *)

Lemma sent_after_window (w : world) (win : list loc) (m : obj) :
  sent (World (heap w ++ [OList win]) (lm_calls w)) m win
  = (heap w ++ [OList win; m; OList (win ++ [S (length (heap w))])])%list.
Proof.
  unfold sent. simpl. rewrite length_app, <- app_assoc. simpl.
  replace (length (heap w) + 1)%nat with (S (length (heap w))) by lia.
  reflexivity.
Qed.

Lemma world_after_window (w : world) (win : list loc) (m : obj) :
  World (sent (World (heap w ++ [OList win]) (lm_calls w)) m win)
    (lm_calls w ++ [S (length (heap w ++ [OList win])%list)])
  = after_run w win m.
Proof.
  rewrite sent_after_window. unfold after_run. rewrite length_app. simpl.
  replace (length (heap w) + 1)%nat with (S (length (heap w))) by lia.
  reflexivity.
Qed.

Section Runs.

Variable json_loads : string -> option pyval.
Variable prompts : BuiltInAgentPrompt.
Variable llm : AnLLM.
Variables (conversation context : option loc) (task : string) (w : world).
Hypothesis conversation_ok : is_conversation w conversation = true.

(** The completion that the LM gives for the list sent in [w']. *)
Let completion (w' : world) : string := llm (heap w') (S (S (length (heap w)))).

Lemma GoalAgent_run :
  let w' := after_run w (window_items w conversation None)
              (message AgentRole_SYSTEM (PROBLEM_STATEMENT prompts)) in
  construct_and_execute (GoalAgent_init llm conversation)
    (GoalAgent_execute json_loads prompts) task w
  = (match json_loads (completion w') with
     | Some (VDict d) => Ret (dict_get_default d "problem statement" (VStr ""))
     | Some _ => Raise AttributeError
     | None => Ret (VStr (PROBLEM_STATEMENT prompts))
     end, w').
Proof.
  intros w'. unfold construct_and_execute, GoalAgent_init.
  unfold bind at 1. unfold bind at 1.
  rewrite (window_ok_run _ _ _ conversation_ok). unfold ret at 1.
  erewrite GoalAgent_execute_run by (simpl; apply lookup_new).
  cbn [GoalAgent_llm heap lm_calls]. rewrite world_after_window.
  rewrite sent_after_window. unfold completion, w', after_run.
  rewrite length_app. simpl.
  replace (length (heap w) + 1)%nat with (S (length (heap w))) by lia.
  reflexivity.
Qed.

Lemma AskUserAgent_run (heuristic : string) :
  all_space heuristic = false ->
  let w' := after_run w (window_items w conversation None)
              (message AgentRole_SYSTEM
                 (ASK_USER prompts task (strip heuristic))) in
  construct_and_execute (AskUserAgent_init llm heuristic conversation)
    (AskUserAgent_execute json_loads prompts) task w
  = (match json_loads (completion w') with
     | Some (VDict d) => Ret (dict_get_default d "question" (VStr ""))
     | Some _ => Raise AttributeError
     | None => Ret (VStr "")
     end, w').
Proof.
  intros Hs w'. unfold construct_and_execute, AskUserAgent_init.
  unfold bind at 1. unfold bind at 1.
  rewrite (window_ok_run _ _ _ conversation_ok). unfold ret at 1.
  erewrite AskUserAgent_execute_run; [|simpl; apply lookup_new|].
  - cbn [AskUserAgent_llm AskUserAgent_ask_user_heuristic heap lm_calls].
    rewrite world_after_window.
    rewrite sent_after_window. unfold completion, w', after_run.
    rewrite length_app. simpl.
    replace (length (heap w) + 1)%nat with (S (length (heap w))) by lia.
    reflexivity.
  - simpl. intros He. apply strip_empty_iff in He. congruence.
Qed.

Lemma ContextValidator_run :
  let win := window_items w conversation (Some (-1)) in
  let w' := after_run w win
              (message "system"
                 (CONTENT_VALIDATION prompts (heap w ++ [OList win])
                    context task)) in
  construct_and_execute (ContextValidator_init llm conversation context)
    (ContextValidator_execute json_loads prompts) task w
  = (match json_loads (completion w') with
     | Some jobject => Ret jobject
     | None => Ret (VDict [])
     end, w').
Proof.
  intros win w'. unfold construct_and_execute, ContextValidator_init.
  unfold bind at 1. unfold bind at 1.
  rewrite (window_ok_run _ _ _ conversation_ok). unfold ret at 1.
  erewrite ContextValidator_execute_run by (simpl; apply lookup_new).
  cbn [ContextValidator_llm ContextValidator_context heap lm_calls].
  fold win. rewrite world_after_window.
  rewrite sent_after_window. unfold completion, w', after_run.
  rewrite length_app. simpl.
  replace (length (heap w) + 1)%nat with (S (length (heap w))) by lia.
  reflexivity.
Qed.

Lemma SynthesizingAgent_run :
  let win := window_items w conversation (Some (-1)) in
  let w' := after_run w win
              (message "system"
                 (SYNTHESIZE_RESULT prompts (heap w ++ [OList win])
                    context task)) in
  construct_and_execute (SynthesizingAgent_init llm conversation context)
    (SynthesizingAgent_execute json_loads prompts) task w
  = (match json_loads (completion w') with
     | Some jobject => Ret jobject
     | None => Ret (VDict [])
     end, w').
Proof.
  intros win w'. unfold construct_and_execute, SynthesizingAgent_init.
  unfold bind at 1. unfold bind at 1.
  rewrite (window_ok_run _ _ _ conversation_ok). unfold ret at 1.
  erewrite SynthesizingAgent_execute_run by (simpl; apply lookup_new).
  cbn [SynthesizingAgent_llm SynthesizingAgent_context heap lm_calls].
  fold win. rewrite world_after_window.
  rewrite sent_after_window. unfold completion, w', after_run.
  rewrite length_app. simpl.
  replace (length (heap w) + 1)%nat with (S (length (heap w))) by lia.
  reflexivity.
Qed.

Lemma OODAPlanAgent_run :
  let w' := after_run w (window_items w conversation None)
              (message "system" (GENERATE_OODA_PLAN prompts)) in
  construct_and_execute (OODAPlanAgent_init llm conversation)
    (OODAPlanAgent_execute json_loads prompts) task w
  = (match json_loads (completion w') with
     | Some jobject => Ret jobject
     | None => Ret (VDict [])
     end, w').
Proof.
  intros w'. unfold construct_and_execute, OODAPlanAgent_init.
  unfold bind at 1. unfold bind at 1.
  rewrite (window_ok_run _ _ _ conversation_ok). unfold ret at 1.
  erewrite OODAPlanAgent_execute_run by (simpl; apply lookup_new).
  cbn [OODAPlanAgent_llm heap lm_calls]. rewrite world_after_window.
  rewrite sent_after_window. unfold completion, w', after_run.
  rewrite length_app. simpl.
  replace (length (heap w) + 1)%nat with (S (length (heap w))) by lia.
  reflexivity.
Qed.

End Runs.

(** A heuristic of whitespace only: the agent is constructed, and [execute]
    returns the empty text at once. *)
Lemma AskUserAgent_run_blank
    (json_loads : string -> option pyval) (prompts : BuiltInAgentPrompt)
    (llm : AnLLM) (heuristic : string) (conversation : option loc)
    (task : string) (w : world) :
  is_conversation w conversation = true ->
  all_space heuristic = true ->
  construct_and_execute (AskUserAgent_init llm heuristic conversation)
    (AskUserAgent_execute json_loads prompts) task w
  = (Ret (VStr ""),
     World (heap w ++ [OList (window_items w conversation None)]) (lm_calls w)).
Proof.
  intros Hconv Hs. unfold construct_and_execute, AskUserAgent_init.
  unfold bind at 1. unfold bind at 1.
  rewrite (window_ok_run _ _ _ Hconv). unfold ret at 1.
  apply AskUserAgent_execute_short_circuit. simpl.
  apply strip_all_space. exact Hs.
Qed.

(** ** LM invocations of [AskUserAgent] *)

(** C6. For every task, [AskUserAgent] constructed with the empty
    heuristic, or with one of whitespace only, returns the empty text from
    [execute] and does not invoke the LM; constructed with a heuristic that
    has a character that is not whitespace, it invokes the LM exactly
    once. *)
Theorem AskUserAgent_configured_heuristic_invocations
    (json_loads : string -> option pyval) (prompts : BuiltInAgentPrompt)
    (llm : AnLLM) (heuristic : string) (conversation : option loc)
    (task : string) (w : world) :
  is_conversation w conversation = true ->
  let run := construct_and_execute (AskUserAgent_init llm heuristic conversation)
               (AskUserAgent_execute json_loads prompts) task in
  (heuristic = "" ->
   fst (run w) = Ret (VStr "") /\ lm_invocations run w = 0%nat)
  /\ (all_space heuristic = true ->
      fst (run w) = Ret (VStr "") /\ lm_invocations run w = 0%nat)
  /\ (all_space heuristic = false -> lm_invocations run w = 1%nat).
Proof.
  intros Hconv run.
  assert (Hblank : all_space heuristic = true ->
                   fst (run w) = Ret (VStr "")
                   /\ lm_invocations run w = 0%nat).
  { intros Hs. unfold run, lm_invocations.
    rewrite (AskUserAgent_run_blank _ _ _ _ _ _ _ Hconv Hs). simpl.
    split; [reflexivity|lia]. }
  split; [intros ->; apply Hblank; reflexivity|].
  split; [exact Hblank|].
  intros Hs. unfold run, lm_invocations.
  rewrite (AskUserAgent_run _ _ _ _ _ _ Hconv _ Hs). simpl.
  rewrite length_app. simpl. lia.
Qed.

Lemma AskUserAgent_configured_heuristic_invocations_witness :
  let run heuristic :=
    construct_and_execute
      (AskUserAgent_init example_llm heuristic (Some 1%nat))
      (AskUserAgent_execute decode_literals example_prompts) "task" in
  is_conversation example_world (Some 1%nat) = true
  /\ all_space " ask if ambiguous " = false
  /\ lm_invocations (run " ask if ambiguous ") example_world = 1%nat.
Proof.
  intros run. split; [reflexivity|]. split; [reflexivity|].
  exact (proj2 (proj2
           (AskUserAgent_configured_heuristic_invocations decode_literals
              example_prompts example_llm " ask if ambiguous " (Some 1%nat)
              "task" example_world eq_refl)) eq_refl).
Defined.

(** The heuristic of one space is not empty, and the LM is not invoked: it is
    not so that every heuristic that is not empty gives one invocation. *)
Lemma AskUserAgent_nonempty_heuristic_counterexample :
  ~ (forall heuristic : string,
       heuristic <> "" ->
       lm_invocations
         (construct_and_execute
            (AskUserAgent_init example_llm heuristic (Some 1%nat))
            (AskUserAgent_execute decode_literals example_prompts) "task")
         example_world = 1%nat).
Proof.
  intros H. specialize (H " " ltac:(discriminate)).
  vm_compute in H. discriminate.
Qed.

Lemma after_run_sends_once (w : world) (win : list loc) (m : obj) :
  sends_once w (after_run w win m) win m.
Proof.
  exists (S (length (heap w))). split; [apply lookup_ge_None_2; lia|].
  unfold after_run, lists_sent. simpl. split.
  - change [OList win; m; OList (win ++ [S (length (heap w))])]
      with ([OList win] ++ m :: [OList (win ++ [S (length (heap w))])])%list.
    rewrite app_assoc. apply list_lookup_middle.
    rewrite length_app. simpl. lia.
  - rewrite drop_app_length. simpl. f_equal.
    change [OList win; m; OList (win ++ [S (length (heap w))])]
      with ([OList win; m] ++ [OList (win ++ [S (length (heap w))])])%list.
    rewrite app_assoc. apply list_lookup_middle.
    rewrite length_app. simpl. lia.
Qed.

(** X2. Constructed on a conversation and executed, [GoalAgent],
    [ContextValidator], [SynthesizingAgent] and [OODAPlanAgent] always, and
    [AskUserAgent] when its heuristic has a character that is not
    whitespace, invoke the LM once, on a new list that holds the window
    followed by one new message with role system and the rendered prompt as
    content: the prompt of [AskUserAgent] is rendered from the task and the
    stripped heuristic, those of [ContextValidator] and [SynthesizingAgent]
    from the context and the task. [AskUserAgent] with a heuristic of
    whitespace only, or empty, sends nothing. *)
Theorem agents_send_window_and_system_message
    (json_loads : string -> option pyval) (prompts : BuiltInAgentPrompt)
    (llm : AnLLM) (heuristic : string) (conversation context : option loc)
    (task : string) (w : world) :
  is_conversation w conversation = true ->
  let last_10 := window_items w conversation None in
  let last_10_but_newest := window_items w conversation (Some (-1)) in
  let store := (heap w ++ [OList last_10_but_newest])%list in
  (all_space heuristic = false ->
   sends_once w
     (snd (construct_and_execute (AskUserAgent_init llm heuristic conversation)
             (AskUserAgent_execute json_loads prompts) task w))
     last_10 (message "system" (ASK_USER prompts task (strip heuristic))))
  /\ (all_space heuristic = true ->
      lists_sent w
        (snd (construct_and_execute
                (AskUserAgent_init llm heuristic conversation)
                (AskUserAgent_execute json_loads prompts) task w))
      = [])
  /\ sends_once w
       (snd (construct_and_execute (GoalAgent_init llm conversation)
               (GoalAgent_execute json_loads prompts) task w))
       last_10 (message "system" (PROBLEM_STATEMENT prompts))
  /\ sends_once w
       (snd (construct_and_execute
               (ContextValidator_init llm conversation context)
               (ContextValidator_execute json_loads prompts) task w))
       last_10_but_newest
       (message "system" (CONTENT_VALIDATION prompts store context task))
  /\ sends_once w
       (snd (construct_and_execute
               (SynthesizingAgent_init llm conversation context)
               (SynthesizingAgent_execute json_loads prompts) task w))
       last_10_but_newest
       (message "system" (SYNTHESIZE_RESULT prompts store context task))
  /\ sends_once w
       (snd (construct_and_execute (OODAPlanAgent_init llm conversation)
               (OODAPlanAgent_execute json_loads prompts) task w))
       last_10 (message "system" (GENERATE_OODA_PLAN prompts)).
Proof.
  intros Hconv last_10 last_10_but_newest store.
  split; [intros Hs; rewrite (AskUserAgent_run _ _ _ _ _ _ Hconv _ Hs)|].
  { apply after_run_sends_once. }
  split; [intros Hs; rewrite (AskUserAgent_run_blank _ _ _ _ _ _ _ Hconv Hs)|].
  { unfold lists_sent. simpl. rewrite drop_all. reflexivity. }
  rewrite (GoalAgent_run _ _ _ _ _ _ Hconv).
  rewrite (ContextValidator_run _ _ _ _ _ _ _ Hconv).
  rewrite (SynthesizingAgent_run _ _ _ _ _ _ _ Hconv).
  rewrite (OODAPlanAgent_run _ _ _ _ _ _ Hconv).
  repeat split; apply after_run_sends_once.
Qed.

Lemma agents_send_window_and_system_message_witness :
  is_conversation example_world (Some 1%nat) = true
  /\ sends_once example_world
       (snd (construct_and_execute
               (ContextValidator_init example_llm (Some 1%nat) None)
               (ContextValidator_execute decode_literals example_prompts)
               "Is it enough?" example_world))
       [] (message "system" "Validate: Is it enough?").
Proof.
  split; [reflexivity|].
  apply (agents_send_window_and_system_message decode_literals example_prompts
           example_llm "" (Some 1%nat) None "Is it enough?" example_world).
  reflexivity.
Defined.

(** ** Completions that are JSON *)

Section ValidJson.

Variable json_loads : string -> option pyval.
Variable prompts : BuiltInAgentPrompt.
Variable llm : AnLLM.
Variables (conversation context : option loc) (task : string) (w : world).
Variable jobject : pyval.
Hypothesis conversation_ok : is_conversation w conversation = true.
Hypothesis decoded : forall h m, json_loads (llm h m) = Some jobject.

(** X3. When the completion is a JSON object, [AskUserAgent.execute]
    returns its field question and [GoalAgent.execute] its field problem
    statement, whatever the type of the value, and the empty text when the
    object has no such field. *)
Theorem text_agents_return_field (heuristic : string) (d : dict pyval) :
  jobject = VDict d ->
  (all_space heuristic = false ->
   fst (construct_and_execute (AskUserAgent_init llm heuristic conversation)
          (AskUserAgent_execute json_loads prompts) task w)
   = Ret (match dict_get d "question" with Some v => v | None => VStr "" end))
  /\ fst (construct_and_execute (GoalAgent_init llm conversation)
            (GoalAgent_execute json_loads prompts) task w)
     = Ret (match dict_get d "problem statement" with
            | Some v => v
            | None => VStr ""
            end).
Proof.
  intros ->. split.
  - intros Hs. rewrite (AskUserAgent_run _ _ _ _ _ _ conversation_ok _ Hs).
    simpl. rewrite decoded. reflexivity.
  - rewrite (GoalAgent_run _ _ _ _ _ _ conversation_ok).
    simpl. rewrite decoded. reflexivity.
Qed.

(** X4. When the completion is JSON but not an object (a list, a string, a
    number, true, false or null), [AskUserAgent.execute] and
    [GoalAgent.execute] raise AttributeError: only a decode error is
    caught. *)
Theorem text_agents_raise_on_non_object (heuristic : string) :
  is_dict jobject = false ->
  (all_space heuristic = false ->
   fst (construct_and_execute (AskUserAgent_init llm heuristic conversation)
          (AskUserAgent_execute json_loads prompts) task w)
   = Raise AttributeError)
  /\ fst (construct_and_execute (GoalAgent_init llm conversation)
            (GoalAgent_execute json_loads prompts) task w)
     = Raise AttributeError.
Proof.
  intros Hd. split.
  - intros Hs. rewrite (AskUserAgent_run _ _ _ _ _ _ conversation_ok _ Hs).
    simpl. rewrite decoded. destruct jobject; try reflexivity; discriminate.
  - rewrite (GoalAgent_run _ _ _ _ _ _ conversation_ok).
    simpl. rewrite decoded. destruct jobject; try reflexivity; discriminate.
Qed.

(** X5. [ContextValidator.execute], [SynthesizingAgent.execute] and
    [OODAPlanAgent.execute] return the decoded completion as it is, also
    when it is not a dict. *)
Theorem mapping_agents_return_decoded_value :
  fst (construct_and_execute (ContextValidator_init llm conversation context)
         (ContextValidator_execute json_loads prompts) task w)
  = Ret jobject
  /\ fst (construct_and_execute
            (SynthesizingAgent_init llm conversation context)
            (SynthesizingAgent_execute json_loads prompts) task w)
     = Ret jobject
  /\ fst (construct_and_execute (OODAPlanAgent_init llm conversation)
            (OODAPlanAgent_execute json_loads prompts) task w)
     = Ret jobject.
Proof.
  rewrite (ContextValidator_run _ _ _ _ _ _ _ conversation_ok).
  rewrite (SynthesizingAgent_run _ _ _ _ _ _ _ conversation_ok).
  rewrite (OODAPlanAgent_run _ _ _ _ _ _ conversation_ok).
  simpl. rewrite !decoded. repeat split.
Qed.

End ValidJson.

Lemma text_agents_return_field_witness :
  fst (construct_and_execute (GoalAgent_init (constant_llm "{}") (Some 1%nat))
         (GoalAgent_execute decode_literals example_prompts)
         "task" example_world)
  = Ret (VStr "").
Proof.
  exact (proj2
           (text_agents_return_field decode_literals example_prompts
              (constant_llm "{}") (Some 1%nat) "task" example_world (VDict [])
              eq_refl (fun _ _ => eq_refl) "" [] eq_refl)).
Defined.

Lemma text_agents_raise_on_non_object_witness :
  fst (construct_and_execute
         (AskUserAgent_init (constant_llm "[]") "ask if ambiguous" (Some 1%nat))
         (AskUserAgent_execute decode_literals example_prompts)
         "task" example_world)
  = Raise AttributeError.
Proof.
  exact (proj1
           (text_agents_raise_on_non_object decode_literals example_prompts
              (constant_llm "[]") (Some 1%nat) "task" example_world (VList [])
              eq_refl (fun _ _ => eq_refl) "ask if ambiguous" eq_refl)
           eq_refl).
Defined.

Lemma mapping_agents_return_decoded_value_witness :
  fst (construct_and_execute
         (OODAPlanAgent_init (constant_llm "null") (Some 1%nat))
         (OODAPlanAgent_execute decode_literals example_prompts)
         "task" example_world)
  = Ret VNone.
Proof.
  exact (proj2 (proj2
           (mapping_agents_return_decoded_value decode_literals example_prompts
              (constant_llm "null") (Some 1%nat) None "task" example_world
              VNone eq_refl (fun _ _ => eq_refl)))).
Defined.

(** ** An agent executed again *)

Lemma lists_sent_twice (w : world) (m1 m2 : obj) (own : list loc) :
  let w1 := World (sent w m1 own) (lm_calls w ++ [S (length (heap w))]) in
  let w2 := World (sent w1 m2 own) (lm_calls w1 ++ [S (length (heap w1))]) in
  lists_sent w w2
  = [Some (OList (own ++ [length (heap w)]));
     Some (OList (own ++ [(length (heap w) + 2)%nat]))].
Proof.
  intros w1 w2. unfold lists_sent. simpl.
  rewrite <- app_assoc, drop_app_length. simpl.
  assert (Hlen : length (sent w m1 own) = (length (heap w) + 2)%nat).
  { unfold sent. rewrite length_app. reflexivity. }
  f_equal; [|f_equal].
  - apply (sent_lookup_old w1). apply sent_lookup_list.
  - rewrite <- Hlen. apply (sent_lookup_list w1).
Qed.

Section Twice.

Variable json_loads : string -> option pyval.
Variable prompts : BuiltInAgentPrompt.
Variables (task1 task2 : string) (w : world) (own : list loc).

Let twice {Self} (execute : Self -> string -> M world pyval) (self : Self)
  : list (option obj) :=
  lists_sent w (snd (and_then (execute self task1) (execute self task2) w)).

Let expected : list (option obj) :=
  [Some (OList (own ++ [length (heap w)]));
   Some (OList (own ++ [(length (heap w) + 2)%nat]))].

Lemma GoalAgent_execute_twice (self : GoalAgent) :
  heap w !! GoalAgent_conversation self = Some (OList own) ->
  twice (GoalAgent_execute json_loads prompts) self = expected.
Proof.
  intros Hc. unfold twice, and_then.
  rewrite (GoalAgent_execute_run _ _ _ _ _ _ Hc).
  cbn [snd]. erewrite GoalAgent_execute_run
    by (apply sent_lookup_old; exact Hc).
  cbn [snd]. apply lists_sent_twice.
Qed.

Lemma AskUserAgent_execute_twice (self : AskUserAgent) :
  heap w !! AskUserAgent_conversation self = Some (OList own) ->
  AskUserAgent_ask_user_heuristic self <> "" ->
  twice (AskUserAgent_execute json_loads prompts) self = expected.
Proof.
  intros Hc Hne. unfold twice, and_then.
  rewrite (AskUserAgent_execute_run _ _ _ _ _ _ Hc Hne).
  cbn [snd]. erewrite AskUserAgent_execute_run;
    [|apply sent_lookup_old; exact Hc|exact Hne].
  cbn [snd]. apply lists_sent_twice.
Qed.

Lemma AskUserAgent_execute_twice_empty (self : AskUserAgent) :
  AskUserAgent_ask_user_heuristic self = "" ->
  twice (AskUserAgent_execute json_loads prompts) self = [].
Proof.
  intros He. unfold twice, and_then.
  rewrite !(AskUserAgent_execute_short_circuit _ _ _ _ _ He). cbn [snd].
  unfold lists_sent. rewrite drop_all. reflexivity.
Qed.

Lemma ContextValidator_execute_twice (self : ContextValidator) :
  heap w !! ContextValidator_conversation self = Some (OList own) ->
  twice (ContextValidator_execute json_loads prompts) self = expected.
Proof.
  intros Hc. unfold twice, and_then.
  rewrite (ContextValidator_execute_run _ _ _ _ _ _ Hc).
  cbn [snd]. erewrite ContextValidator_execute_run
    by (apply sent_lookup_old; exact Hc).
  cbn [snd]. apply lists_sent_twice.
Qed.

Lemma SynthesizingAgent_execute_twice (self : SynthesizingAgent) :
  heap w !! SynthesizingAgent_conversation self = Some (OList own) ->
  twice (SynthesizingAgent_execute json_loads prompts) self = expected.
Proof.
  intros Hc. unfold twice, and_then.
  rewrite (SynthesizingAgent_execute_run _ _ _ _ _ _ Hc).
  cbn [snd]. erewrite SynthesizingAgent_execute_run
    by (apply sent_lookup_old; exact Hc).
  cbn [snd]. apply lists_sent_twice.
Qed.

Lemma OODAPlanAgent_execute_twice (self : OODAPlanAgent) :
  heap w !! OODAPlanAgent_conversation self = Some (OList own) ->
  twice (OODAPlanAgent_execute json_loads prompts) self = expected.
Proof.
  intros Hc. unfold twice, and_then.
  rewrite (OODAPlanAgent_execute_run _ _ _ _ _ _ Hc).
  cbn [snd]. erewrite OODAPlanAgent_execute_run
    by (apply sent_lookup_old; exact Hc).
  cbn [snd]. apply lists_sent_twice.
Qed.

End Twice.

(** X6. An agent that is executed twice sends the conversation it holds
    followed by a new system message each time: [execute] does not add the
    system message, nor anything else, to the conversation the agent holds,
    whatever the first call returned or raised. This is so for [GoalAgent],
    [ContextValidator], [SynthesizingAgent] and [OODAPlanAgent], and for an
    [AskUserAgent] that holds a heuristic that is not empty; an
    [AskUserAgent] that holds the empty heuristic sends nothing, either
    time. *)
Theorem agents_execute_twice
    (json_loads : string -> option pyval) (prompts : BuiltInAgentPrompt)
    (llm : AnLLM) (heuristic : string) (context : option loc)
    (task1 task2 : string) (w : world) (c : loc) (own : list loc) :
  heap w !! c = Some (OList own) ->
  let twice {Self} (execute : Self -> string -> M world pyval) (self : Self) :=
    lists_sent w (snd (and_then (execute self task1) (execute self task2) w)) in
  let expected :=
    [Some (OList (own ++ [length (heap w)]));
     Some (OList (own ++ [(length (heap w) + 2)%nat]))] in
  twice (AskUserAgent_execute json_loads prompts)
    {| AskUserAgent_llm := llm;
       AskUserAgent_ask_user_heuristic := heuristic;
       AskUserAgent_conversation := c |}
  = (if String.eqb heuristic "" then [] else expected)
  /\ twice (GoalAgent_execute json_loads prompts)
       {| GoalAgent_llm := llm; GoalAgent_conversation := c |} = expected
  /\ twice (ContextValidator_execute json_loads prompts)
       {| ContextValidator_llm := llm;
          ContextValidator_conversation := c;
          ContextValidator_context := context |} = expected
  /\ twice (SynthesizingAgent_execute json_loads prompts)
       {| SynthesizingAgent_llm := llm;
          SynthesizingAgent_conversation := c;
          SynthesizingAgent_context := context |} = expected
  /\ twice (OODAPlanAgent_execute json_loads prompts)
       {| OODAPlanAgent_llm := llm; OODAPlanAgent_conversation := c |}
     = expected.
Proof.
  intros Hc twice expected. unfold twice, expected.
  split.
  { destruct (String.eqb_spec heuristic "") as [He|Hne].
    - apply AskUserAgent_execute_twice_empty. exact He.
    - apply AskUserAgent_execute_twice; assumption. }
  split; [apply GoalAgent_execute_twice; assumption|].
  split; [apply ContextValidator_execute_twice; assumption|].
  split; [apply SynthesizingAgent_execute_twice; assumption|].
  apply OODAPlanAgent_execute_twice; assumption.
Qed.

Lemma agents_execute_twice_witness :
  heap example_world !! 1%nat = Some (OList [0%nat])
  /\ lists_sent example_world
       (snd (and_then
               (GoalAgent_execute decode_literals example_prompts
                  {| GoalAgent_llm := example_llm;
                     GoalAgent_conversation := 1%nat |} "first")
               (GoalAgent_execute decode_literals example_prompts
                  {| GoalAgent_llm := example_llm;
                     GoalAgent_conversation := 1%nat |} "second")
               example_world))
     = [Some (OList [0%nat; 2%nat]); Some (OList [0%nat; 4%nat])].
Proof.
  split; [reflexivity|].
  exact (proj1 (proj2
           (agents_execute_twice decode_literals example_prompts example_llm
              "h" None "first" "second" example_world 1%nat [0%nat]
              eq_refl))).
Defined.

(** ** More on windows *)

Lemma slice_last_10_twice {A} (l : list A) :
  slice (slice l (Some (-10)) None) (Some (-10)) None
  = slice l (Some (-10)) None.
Proof.
  apply slice_last_10_short. rewrite slice_last_10_length. lia.
Qed.

(** X7. An agent constructed on the conversation that another agent holds
    holds the same entries: a window of the last 10 entries is its own
    window. *)
Theorem window_of_window (llm : AnLLM) (w : world) (c : loc) (items : list loc) :
  heap w !! c = Some (OList items) ->
  holds_window
    (let* first := GoalAgent_init llm (Some c) in
     OODAPlanAgent_init llm (Some (GoalAgent_conversation first)))
    OODAPlanAgent_conversation w
    (fun win => win = slice items (Some (-10)) None).
Proof.
  intros Hc. unfold holds_window, GoalAgent_init, OODAPlanAgent_init.
  unfold bind at 1. unfold bind at 1.
  rewrite (window_run _ _ _ _ Hc). unfold ret at 1. cbn [GoalAgent_conversation].
  unfold bind. erewrite window_run by (simpl; apply lookup_new).
  eexists _, _, _. split; [reflexivity|]. simpl.
  split; [apply lookup_new|]. apply slice_last_10_twice.
Qed.

Lemma window_of_window_witness :
  heap example_world !! 1%nat = Some (OList [0%nat])
  /\ holds_window
       (let* first := GoalAgent_init example_llm (Some 1%nat) in
        OODAPlanAgent_init example_llm (Some (GoalAgent_conversation first)))
       OODAPlanAgent_conversation example_world
       (fun win => win = slice [0%nat] (Some (-10)) None).
Proof.
  split; [reflexivity|].
  exact (window_of_window example_llm example_world 1%nat [0%nat] eq_refl).
Defined.

Lemma newest_not_in_window (items : list loc) (newest : loc) :
  NoDup items -> last items = Some newest ->
  newest ∉ slice items (Some (-10)) (Some (-1)).
Proof.
  intros Hnd Hlast Hin.
  destruct (slice_last_10_suffix items) as [k Hk].
  rewrite <- (slice_last_10_but_newest_snoc _ _ Hlast) in Hk.
  rewrite Hk in Hnd. apply NoDup_app in Hnd as (_ & _ & Hnd).
  apply NoDup_app in Hnd as (_ & Hsep & _).
  apply (Hsep newest Hin). apply list_elem_of_singleton. reflexivity.
Qed.

Lemma lists_sent_after_run (w : world) (win : list loc) (m : obj) :
  lists_sent w (after_run w win m)
  = [Some (OList (win ++ [S (length (heap w))]))].
Proof.
  unfold after_run, lists_sent. simpl. rewrite drop_app_length. simpl. f_equal.
  change [OList win; m; OList (win ++ [S (length (heap w))])]
    with ([OList win; m] ++ [OList (win ++ [S (length (heap w))])])%list.
  rewrite app_assoc. apply list_lookup_middle.
  rewrite length_app. simpl. lia.
Qed.

(** X8. [ContextValidator] and [SynthesizingAgent] never send the newest
    message of the conversation to the LM, when every message occurs once
    in the conversation. *)
Theorem validators_never_send_newest
    (json_loads : string -> option pyval) (prompts : BuiltInAgentPrompt)
    (llm : AnLLM) (context : option loc) (task : string) (w : world)
    (c : loc) (items : list loc) (newest : loc) :
  heap w !! c = Some (OList items) ->
  NoDup items ->
  last items = Some newest ->
  is_Some (heap w !! newest) ->
  forall sent_items : list loc,
    (Some (OList sent_items)
     ∈ lists_sent w
         (snd (construct_and_execute
                 (ContextValidator_init llm (Some c) context)
                 (ContextValidator_execute json_loads prompts) task w))
     \/ Some (OList sent_items)
        ∈ lists_sent w
            (snd (construct_and_execute
                    (SynthesizingAgent_init llm (Some c) context)
                    (SynthesizingAgent_execute json_loads prompts) task w))) ->
    newest ∉ sent_items.
Proof.
  intros Hc Hnd Hlast Hnew sent_items Hsent Hin.
  assert (Hconv : is_conversation w (Some c) = true)
    by (simpl; rewrite Hc; reflexivity).
  rewrite (ContextValidator_run _ _ _ _ _ _ _ Hconv) in Hsent.
  rewrite (SynthesizingAgent_run _ _ _ _ _ _ _ Hconv) in Hsent.
  cbn [snd] in Hsent. rewrite !lists_sent_after_run in Hsent.
  assert (Hitems : sent_items
                   = (slice items (Some (-10)) (Some (-1))
                      ++ [S (length (heap w))])%list).
  { unfold window_items in Hsent. rewrite Hc in Hsent.
    destruct Hsent as [Hsent|Hsent];
      apply list_elem_of_singleton in Hsent; congruence. }
  subst sent_items. apply elem_of_app in Hin as [Hin|Hin].
  - exact (newest_not_in_window _ _ Hnd Hlast Hin).
  - apply list_elem_of_singleton in Hin. subst newest.
    apply lookup_lt_is_Some in Hnew. lia.
Qed.

Lemma validators_never_send_newest_witness :
  heap example_world !! 1%nat = Some (OList [0%nat])
  /\ last [0%nat] = Some 0%nat
  /\ 0%nat ∉ [3%nat].
Proof.
  split; [reflexivity|]. split; [reflexivity|].
  apply (validators_never_send_newest decode_literals example_prompts
           example_llm None "task" example_world 1%nat [0%nat] 0%nat
           eq_refl).
  - apply NoDup_singleton.
  - reflexivity.
  - eexists. reflexivity.
  - left. vm_compute. constructor.
Defined.

(** ** More on dicts *)

Lemma dict_has_keys {V} (d : dict V) (k : string) :
  dict_has d k = true <-> k ∈ dict_keys d.
Proof.
  unfold dict_has. induction d as [|[k' v'] d IH]; simpl.
  - split; [discriminate|]. intros H. apply elem_of_nil in H. contradiction.
  - destruct (String.eqb_spec k' k) as [->|Hne].
    + split; [intros _; apply elem_of_cons; left; reflexivity|reflexivity].
    + rewrite IH. split.
      * intros H. apply elem_of_cons. right. exact H.
      * intros H. apply elem_of_cons in H as [H|H]; [congruence|exact H].
Qed.

Lemma dict_keys_set_cases {V} (d : dict V) (k : string) (v : V) :
  dict_keys (dict_set d k v)
  = if dict_has d k then dict_keys d else (dict_keys d ++ [k])%list.
Proof.
  unfold dict_has. induction d as [|[k' v'] d IH]; simpl; [reflexivity|].
  destruct (String.eqb k' k); simpl; [reflexivity|].
  rewrite IH. destruct (dict_get d k); reflexivity.
Qed.

Lemma dict_set_set {V} (d : dict V) (k : string) (v1 v2 : V) :
  dict_set (dict_set d k v1) k v2 = dict_set d k v2.
Proof.
  induction d as [|[k' v'] d IH]; simpl.
  - rewrite String.eqb_refl. reflexivity.
  - destruct (String.eqb k' k) eqn:E; simpl; rewrite E; [reflexivity|].
    rewrite IH. reflexivity.
Qed.

Lemma dict_set_NoDup {V} (d : dict V) (k : string) (v : V) :
  NoDup (dict_keys d) -> NoDup (dict_keys (dict_set d k v)).
Proof.
  intros Hnd. rewrite dict_keys_set_cases.
  destruct (dict_has d k) eqn:E; [exact Hnd|].
  apply NoDup_app. split; [exact Hnd|]. split; [|apply NoDup_singleton].
  intros x Hx Hk. apply list_elem_of_singleton in Hk. subst x.
  apply dict_has_keys in Hx. congruence.
Qed.

Lemma dict_set_length {V} (d : dict V) (k : string) (v : V) :
  length (dict_set d k v)
  = if dict_has d k then length d else S (length d).
Proof.
  unfold dict_has. induction d as [|[k' v'] d IH]; simpl; [reflexivity|].
  destruct (String.eqb k' k); simpl; [reflexivity|].
  rewrite IH. destruct (dict_get d k); reflexivity.
Qed.

(** ** More on the Program Space *)

Section ProgramSpaceMore.

Variables AProgram Knowledge LMChatHist : Type.
Variable knowledge_injection_lm_chat_msgs : list Knowledge -> LMChatHist.
Variable PROGRAM_SEARCH_PROMPT_TEMPLATE :
  string -> dict string -> string -> string.
Variable json_dumps : dict string -> string.

Abbreviation Space' := (ProgramSpace AProgram LMChatHist).
Abbreviation find' := (find_program knowledge_injection_lm_chat_msgs
                         PROGRAM_SEARCH_PROMPT_TEMPLATE json_dumps).
Abbreviation response_of' :=
  (search_response knowledge_injection_lm_chat_msgs
     PROGRAM_SEARCH_PROMPT_TEMPLATE json_dumps).

(** X9. [add_or_update_program] on one name leaves the description and the
    program of every other name as they were. *)
Theorem add_or_update_program_other_names (self : Space')
    (name description : string) (program : AProgram) (other : string) :
  name <> other ->
  dict_get (descriptions (add_or_update_program self name description program))
    other
  = dict_get (descriptions self) other
  /\ dict_get (programs (add_or_update_program self name description program))
       other
     = dict_get (programs self) other.
Proof. intros Hne. split; apply dict_get_set_ne; exact Hne. Qed.

(** X10. [add_or_update_program] keeps the iteration order of the names: a
    name that is registered keeps its place, a new name goes last; the
    names stay distinct. *)
Theorem add_or_update_program_order (self : Space')
    (name description : string) (program : AProgram) :
  let after := add_or_update_program self name description program in
  dict_keys (descriptions after)
  = (if dict_has (descriptions self) name then dict_keys (descriptions self)
     else dict_keys (descriptions self) ++ [name])%list
  /\ dict_keys (programs after)
     = (if dict_has (programs self) name then dict_keys (programs self)
        else dict_keys (programs self) ++ [name])%list
  /\ (NoDup (dict_keys (descriptions self)) ->
      NoDup (dict_keys (descriptions after)))
  /\ (NoDup (dict_keys (programs self)) ->
      NoDup (dict_keys (programs after))).
Proof.
  simpl. split; [apply dict_keys_set_cases|].
  split; [apply dict_keys_set_cases|].
  split; apply dict_set_NoDup.
Qed.

(** X11. Registering a name again replaces the earlier registration: the
    Program Space is the one that the last call alone gives. In particular
    the same call made twice is the call made once. *)
Theorem add_or_update_program_overwrites (self : Space')
    (name d1 d2 : string) (p1 p2 : AProgram) :
  add_or_update_program (add_or_update_program self name d1 p1) name d2 p2
  = add_or_update_program self name d2 p2.
Proof.
  unfold add_or_update_program. simpl. rewrite !dict_set_set. reflexivity.
Qed.

(** X12. After any sequence of calls on a new Program Space no name is
    registered twice, and there are at most as many entries as calls. *)
Theorem add_or_update_programs_distinct (lm : AnLM LMChatHist)
    (calls : list (string * string * AProgram)) :
  let after := add_or_update_programs (ProgramSpace_new lm) calls in
  NoDup (dict_keys (programs after))
  /\ (length (programs after) <= length calls)%nat.
Proof.
  simpl.
  assert (H : forall self : Space',
    NoDup (dict_keys (programs self)) ->
    NoDup (dict_keys (programs (add_or_update_programs self calls)))
    /\ (length (programs (add_or_update_programs self calls))
        <= length (programs self) + length calls)%nat).
  { induction calls as [|[[n d] p] calls IH]; intros self Hnd.
    - simpl. split; [exact Hnd|lia].
    - change (add_or_update_programs self ((n, d, p) :: calls))
        with (add_or_update_programs (add_or_update_program self n d p) calls).
      destruct (IH (add_or_update_program self n d p)) as [IH1 IH2].
      + simpl. apply dict_set_NoDup. exact Hnd.
      + split; [exact IH1|]. simpl in IH2. simpl.
        rewrite dict_set_length in IH2.
        destruct (dict_has (programs self) n); lia. }
  destruct (H (ProgramSpace_new lm)) as [H1 H2]; [apply NoDup_nil_2|].
  split; [exact H1|exact H2].
Qed.

(** X13. [find_program] returns a program exactly when the response of the
    LM does not start with NONE and is a registered name, and then it is
    the program registered under that name: a program registered under a
    name that starts with NONE is never found. *)
Theorem find_program_some_iff (problem : string)
    (knowledge : option (list Knowledge)) (rs : list AResource)
    (s : space_state AProgram LMChatHist) (program : AProgram) :
  let name := response_of' (space s) problem knowledge rs in
  fst (find' problem knowledge (Some rs) s) = Ret (Some program)
  <-> startswith name "NONE" = false
      /\ dict_get (programs (space s)) name = Some program.
Proof.
  intros name. rewrite find_program_run. simpl. fold name.
  destruct (startswith name "NONE").
  - split; [discriminate|]. intros [H _]. discriminate.
  - destruct (dict_get (programs (space s)) name) as [p|].
    + split.
      * intros [= ->]. split; reflexivity.
      * intros [_ [= ->]]. reflexivity.
    + split; [discriminate|]. intros [_ H]. discriminate.
Qed.

(** X14. [find_program] never changes the Program Space. When resources
    are given it sends the LM one request: the template filled with the
    problem, the overviews of the resources and the serialized descriptions,
    with the injected knowledge as history when there is knowledge and no
    history when [knowledge] is [None] or empty. When they are not given it
    sends none. *)
Theorem find_program_reads_only (problem : string)
    (knowledge : option (list Knowledge))
    (resources : option (list AResource))
    (s : space_state AProgram LMChatHist) :
  let s' := snd (find' problem knowledge resources s) in
  space s' = space s
  /\ lm_requests s'
     = (lm_requests s
        ++ match resources with
           | Some rs =>
               [(PROGRAM_SEARCH_PROMPT_TEMPLATE problem (overviews_of rs)
                   (json_dumps (descriptions (space s))),
                 match knowledge with
                 | Some (k :: ks) =>
                     Some (knowledge_injection_lm_chat_msgs (k :: ks))
                 | _ => None
                 end)]
           | None => []
           end)%list.
Proof.
  destruct resources as [rs|].
  - rewrite find_program_run. simpl. split; reflexivity.
  - simpl. rewrite app_nil_r. split; reflexivity.
Qed.

End ProgramSpaceMore.

Lemma add_or_update_program_other_names_witness :
  let lm : string -> option unit -> string := fun _ _ => "NONE" in
  dict_get
    (programs (add_or_update_program (example_space lm) "other-plan" "d" 2%nat))
    "cash-flow-plan"
  = Some 1%nat.
Proof.
  intros lm.
  exact (proj2
           (add_or_update_program_other_names nat unit (example_space lm)
              "other-plan" "d" 2%nat "cash-flow-plan" ltac:(discriminate))).
Defined.

(** ** Overviews of resources *)

Lemma overviews_of_snoc (rs : list AResource) (r : AResource) :
  overviews_of (rs ++ [r])
  = dict_set (overviews_of rs) (unique_name r) (overview r).
Proof. unfold overviews_of. rewrite fold_left_app. reflexivity. Qed.

(** X15. In the overviews given to the prompt, a unique name maps to the
    overview of the last resource with that name in iteration order; no
    resources give the empty dict. *)
Theorem resource_overviews_last_wins (rs rest : list AResource) (r : AResource) :
  (forall r', r' ∈ rest -> unique_name r' <> unique_name r) ->
  dict_get (overviews_of (rs ++ r :: rest)) (unique_name r) = Some (overview r)
  /\ overviews_of [] = [].
Proof.
  intros Hrest. split; [|reflexivity].
  induction rest as [|r' rest IH] using rev_ind.
  - rewrite overviews_of_snoc. apply dict_get_set_eq.
  - rewrite app_comm_cons, app_assoc, overviews_of_snoc.
    rewrite dict_get_set_ne.
    + apply IH. intros x Hx. apply Hrest. apply elem_of_app. left. exact Hx.
    + apply Hrest. apply elem_of_app. right.
      apply list_elem_of_singleton. reflexivity.
Qed.

Lemma resource_overviews_last_wins_witness :
  let old := {| unique_name := "10-K"; overview := "old" |} in
  let new := {| unique_name := "10-K"; overview := "new" |} in
  let other := {| unique_name := "10-Q"; overview := "quarterly" |} in
  dict_get (overviews_of [old; new; other]) "10-K" = Some "new".
Proof.
  intros old new other.
  refine (proj1 (resource_overviews_last_wins [old] [other] new _)).
  intros r' Hr'. apply list_elem_of_singleton in Hr'. subst r'. discriminate.
Defined.

(** ** The FinanceBench example harness *)

Module FinanceBenchProps.
Import FinanceBench.

Lemma startswith_app (p s : string) : startswith (p ++ s) p = true.
Proof.
  unfold startswith. induction p as [|c p IH]; simpl.
  - destruct s; reflexivity.
  - destruct (ascii_dec c c) as [_|Hne]; [exact IH|contradiction].
Qed.

(** X16. The id that the entry point of [rag_default.py] hands to [answer]
    always starts with FB_ID_COL_NAME; an id that starts with it is handed
    over as it is, so the completion of an id is idempotent. *)
Theorem main_fb_id_prefixed (FB_ID_COL_NAME fb_id : string) :
  startswith (main_fb_id FB_ID_COL_NAME fb_id) FB_ID_COL_NAME = true
  /\ main_fb_id FB_ID_COL_NAME (main_fb_id FB_ID_COL_NAME fb_id)
     = main_fb_id FB_ID_COL_NAME fb_id.
Proof.
  assert (H : startswith (main_fb_id FB_ID_COL_NAME fb_id) FB_ID_COL_NAME
              = true).
  { unfold main_fb_id.
    destruct (startswith fb_id FB_ID_COL_NAME) eqn:E;
      [exact E | apply startswith_app]. }
  split; [exact H|].
  unfold main_fb_id at 1. rewrite H. reflexivity.
Qed.

Lemma lower_app (a b : string) : lower (a ++ b) = lower a ++ lower b.
Proof. induction a as [|c a IH]; simpl; [reflexivity|]. rewrite IH. reflexivity. Qed.

Lemma contains_unfold (s sub : string) :
  contains s sub
  = if startswith s sub then true
    else match s with
         | EmptyString => false
         | String _ s' => contains s' sub
         end.
Proof. destruct s; reflexivity. Qed.

Lemma contains_app (a sub b : string) : contains (a ++ sub ++ b) sub = true.
Proof.
  induction a as [|c a IH].
  - change ("" ++ sub ++ b) with (sub ++ b).
    rewrite contains_unfold, startswith_app. reflexivity.
  - rewrite contains_unfold.
    destruct (startswith _ sub); [reflexivity | exact IH].
Qed.

Section HarnessProps.

Variable St : Type.
Variable DataFrame : Type.
Variable FB_IDS : list string.
Variables DOC_NAMES_BY_FB_ID QS_BY_FB_ID : dict string.
Variable eval_all : string -> bool -> M St unit.
Variable eval_correctness : string -> string -> string -> M St unit.
Variable logger_info : string -> M St unit.
Variable get_or_create_output_df : M St DataFrame.
Variable loc_setitem : DataFrame -> string -> string -> string -> M St unit.
Variable to_csv : DataFrame -> M St unit.
Variable upper : string -> string.

Abbreviation batch := (enable_batch_qa_and_eval St FB_IDS eval_all
                         eval_correctness).
Abbreviation logged := (log_qa_and_update_output_file St DataFrame
                          DOC_NAMES_BY_FB_ID QS_BY_FB_ID logger_info
                          get_or_create_output_df loc_setitem to_csv upper).

(** X17. Every id that has the letters a, l, l in a row, in upper or lower
    case and anywhere in it, asks for the batch: the decorated function
    answers every id of FB_IDS, evaluates them all and returns [None], and
    the id itself is not looked up. *)
Theorem batch_when_id_contains_all (output_name : string)
    (qa_func : QAFunc St) (before word after : string) :
  lower word = "all" ->
  batch output_name qa_func (before ++ word ++ after)
  = (let* _ := for_each FB_IDS
                 (fun _fb_id => let* _ := qa_func _fb_id in ret tt) in
     let* _ := eval_all output_name true in
     ret None).
Proof.
  intros Hw. unfold enable_batch_qa_and_eval.
  rewrite !lower_app, Hw, contains_app. reflexivity.
Qed.

Lemma for_each_app {A} (xs ys : list A) (body : A -> M St unit) (s s1 : St) :
  for_each xs body s = (Ret tt, s1) ->
  for_each (xs ++ ys) body s = for_each ys body s1.
Proof.
  revert s. induction xs as [|x xs IH]; intros s; simpl.
  - intros [= <-]. reflexivity.
  - unfold bind. destruct (body x s) as [[[]|e] s'];
      [apply IH | discriminate].
Qed.

(** X18. In the batch, the first id on which the question-answering function
    raises ends the loop: the exception goes to the caller, the ids after it
    are not answered and nothing is evaluated. *)
Theorem batch_stops_at_first_failure (output_name : string)
    (qa_func : QAFunc St) (fb_id : string)
    (done rest : list string) (failing : string) (e : exn) (s s1 s2 : St) :
  contains (lower fb_id) "all" = true ->
  FB_IDS = (done ++ failing :: rest)%list ->
  for_each done (fun _fb_id => let* _ := qa_func _fb_id in ret tt) s
  = (Ret tt, s1) ->
  qa_func failing s1 = (Raise e, s2) ->
  batch output_name qa_func fb_id s = (Raise e, s2).
Proof.
  intros Hall Hids Hdone Hfail. unfold enable_batch_qa_and_eval.
  rewrite Hall, Hids. unfold bind at 1.
  rewrite (for_each_app _ _ _ _ _ Hdone). simpl.
  unfold bind at 1. unfold bind at 1. rewrite Hfail. reflexivity.
Qed.

(** X19. For an id that is not in DOC_NAMES_BY_FB_ID, or not in QS_BY_FB_ID,
    the logging decorator raises KeyError on the id before anything is
    logged, answered or written. *)
Theorem logged_unknown_id (output_name : string) (qa_func : QAFunc St)
    (fb_id : string) (s : St) :
  dict_get DOC_NAMES_BY_FB_ID fb_id = None
  \/ dict_get QS_BY_FB_ID fb_id = None ->
  logged output_name qa_func fb_id s = (Raise (KeyError fb_id), s).
Proof.
  intros H. unfold log_qa_and_update_output_file, getitem.
  unfold bind at 1.
  destruct (dict_get DOC_NAMES_BY_FB_ID fb_id) as [doc_name|]; [|reflexivity].
  destruct H as [H|H]; [discriminate|].
  unfold ret at 1. unfold bind at 1. rewrite H. reflexivity.
Qed.

(** X20. As [rag_default.py] stacks the two decorators, an id that does not
    ask for the batch and is not in DOC_NAMES_BY_FB_ID raises KeyError, and
    nothing is answered, evaluated or written. *)
Theorem batch_logged_unknown_id (output_name : string) (qa_func : QAFunc St)
    (fb_id : string) (s : St) :
  contains (lower fb_id) "all" = false ->
  dict_get DOC_NAMES_BY_FB_ID fb_id = None ->
  batch output_name (logged output_name qa_func) fb_id s
  = (Raise (KeyError fb_id), s).
Proof.
  intros Hall Hdoc. unfold enable_batch_qa_and_eval. rewrite Hall.
  unfold bind at 1.
  rewrite (logged_unknown_id output_name qa_func fb_id s (or_introl Hdoc)).
  reflexivity.
Qed.

End HarnessProps.

Lemma batch_when_id_contains_all_witness :
  fst (enable_batch_qa_and_eval (list string) ["a"; "b"]
         (fun _ _ => ret tt) (fun _ _ _ => ret tt)
         "rag_default" example_qa_func "financebench_id_smALL" [])
  = Ret None.
Proof.
  change "financebench_id_smALL" with ("financebench_id_sm" ++ "ALL" ++ "").
  rewrite (batch_when_id_contains_all (list string) ["a"; "b"]
             (fun _ _ => ret tt) (fun _ _ _ => ret tt)
             "rag_default" example_qa_func "financebench_id_sm" "ALL" ""
             eq_refl).
  reflexivity.
Defined.

Lemma batch_stops_at_first_failure_witness :
  enable_batch_qa_and_eval (list string) ["a"; "bad"; "c"]
    (fun _ _ => ret tt) (fun _ _ _ => ret tt)
    "rag_default" example_qa_func "all" []
  = (Raise TypeError, ["a"; "bad"]).
Proof.
  exact (batch_stops_at_first_failure (list string) ["a"; "bad"; "c"]
           (fun _ _ => ret tt) (fun _ _ _ => ret tt)
           "rag_default" example_qa_func "all" ["a"] ["c"] "bad" TypeError
           [] ["a"] ["a"; "bad"] eq_refl eq_refl eq_refl eq_refl).
Defined.

Lemma logged_unknown_id_witness :
  log_qa_and_update_output_file (list string) unit
    [("id_1", "10-K")] [("id_1", "What is the revenue?")]
    (fun _ => ret tt) (ret tt) (fun _ _ _ _ => ret tt) (fun _ => ret tt)
    (fun s => s) "rag_default" example_qa_func "id_2" []
  = (Raise (KeyError "id_2"), []).
Proof.
  exact (logged_unknown_id (list string) unit
           [("id_1", "10-K")] [("id_1", "What is the revenue?")]
           (fun _ => ret tt) (ret tt) (fun _ _ _ _ => ret tt) (fun _ => ret tt)
           (fun s => s) "rag_default" example_qa_func "id_2" []
           (or_introl eq_refl)).
Defined.

Lemma batch_logged_unknown_id_witness :
  enable_batch_qa_and_eval (list string) ["id_1"]
    (fun _ _ => ret tt) (fun _ _ _ => ret tt) "rag_default"
    (log_qa_and_update_output_file (list string) unit
       [("id_1", "10-K")] [("id_1", "What is the revenue?")]
       (fun _ => ret tt) (ret tt) (fun _ _ _ _ => ret tt) (fun _ => ret tt)
       (fun s => s) "rag_default" example_qa_func)
    "id_2" []
  = (Raise (KeyError "id_2"), []).
Proof.
  exact (batch_logged_unknown_id (list string) unit ["id_1"]
           [("id_1", "10-K")] [("id_1", "What is the revenue?")]
           (fun _ _ => ret tt) (fun _ _ _ => ret tt)
           (fun _ => ret tt) (ret tt) (fun _ _ _ _ => ret tt) (fun _ => ret tt)
           (fun s => s) "rag_default" example_qa_func "id_2" []
           eq_refl eq_refl).
Defined.

End FinanceBenchProps.
